(** * ollama-embed: a shallow embedding of [Scripts/ollama-embed.py]

    The script posts a text to a local embedding service and prints the
    first returned vector.  The embedding below follows the script line by
    line: [embed] is the function of the same name, [main] is the block
    under [if __name__ == "__main__"], and [run] is the interpreter running
    the script to its exit status.

    What the script calls from the Python standard library is modelled
    after CPython 3.11 with its default settings: [json.dumps]
    ([JsonEncoder]), [json.loads] ([JsonDecoder]), [str.encode] and
    [bytes.decode] ([Utf8]), [float] and [float.__repr__] ([PyFloat]),
    subscripting ([getitem]), [print] and [sys.exit].  An exception is its
    class together with the text [str()] gives for it.

    [urllib.request.urlopen] talks to the outside world: it is an oracle
    ([Network]) the script is run against, and every call made to it is
    recorded in the [World], next to what was written on standard output
    and standard error.

    Left out are the interpreter's resource limits (recursion depth, the
    cap on the digits of an integer literal, memory) and failures of
    writing to the output streams. *)

From Stdlib Require Import String Ascii ZArith NArith List Bool Lia.
From Stdlib Require Import Floats.SpecFloat.
From Stdlib Require Strings.Byte.
Import ListNotations.

Local Open Scope N_scope.

(** ** Python strings and bytes *)

(** A Python [str] is a sequence of Unicode code points. *)
Definition pystr := list N.

(** A Python [bytes] object. *)
Definition pybytes := list Byte.byte.

(** [lit s] is the Python string literal with the (ASCII) characters of [s]. *)
Definition lit (s : string) : pystr :=
  map N_of_ascii (list_ascii_of_string s).

(** The double quote, and literals that contain it: in [jlit s] every
    apostrophe of [s] stands for a double quote. *)
Definition dquote : N := 34.
Definition apostrophe : N := 39.

Definition jlit (s : string) : pystr :=
  map (fun c => if c =? apostrophe then dquote else c) (lit s).

Definition pystr_eqb (a b : pystr) : bool :=
  if list_eq_dec N.eq_dec a b then true else false.

(** Decimal digits of a natural number, most significant first
    ([str(n)] for a non-negative [int]). *)
Fixpoint dec_digits_aux (fuel : nat) (n : N) (acc : pystr) : pystr :=
  match fuel with
  | O => acc
  | S f =>
      let acc' := (48 + n mod 10) :: acc in
      if n / 10 =? 0 then acc' else dec_digits_aux f (n / 10) acc'
  end.

Definition dec_digits (n : N) : pystr :=
  dec_digits_aux (S (N.size_nat n)) n [].

(** [int.__repr__] *)
Definition int_repr (z : Z) : pystr :=
  match z with
  | Zneg p => lit "-" ++ dec_digits (Npos p)
  | _ => dec_digits (Z.to_N z)
  end.

(** Four lower-case hexadecimal digits, as ['{0:04x}'.format(n)] prints a
    number below [0x10000]. *)
Definition hex_digit (d : N) : N :=
  if d <? 10 then 48 + d else 87 + d.

Definition hex4 (n : N) : pystr :=
  [hex_digit ((n / 4096) mod 16); hex_digit ((n / 256) mod 16);
   hex_digit ((n / 16) mod 16); hex_digit (n mod 16)].

(** Two lower-case hexadecimal digits of a byte, as ['%02x'] prints. *)
Definition hex2 (n : N) : pystr :=
  [hex_digit ((n / 16) mod 16); hex_digit (n mod 16)].

(** ** Python floats

    A [float] is an IEEE 754 binary64 number, here a [spec_float] of the
    standard library with 53 bits of precision. *)
Module PyFloat.

Local Open Scope Z_scope.

Definition prec : Z := 53.
Definition emax : Z := 1024.

Definition t := spec_float.

(** [float(s)] for a decimal literal whose value is [(-1)^neg * M * 10^E]:
    the binary64 number nearest to it, ties to even, overflowing to an
    infinity.  With [d] the number of digits of [M] the value lies between
    [10^(E+d-1)] and [10^(E+d)], so it is decided at once when that is
    beyond the largest or below the smallest binary64 number. *)
Definition of_decimal (neg : bool) (M : Z) (E : Z) : t :=
  match M with
  | Zpos m =>
      let d := Z.of_nat (length (dec_digits (Npos m))) in
      if 310 <? E + d then S754_infinity neg
      else if E + d <? -330 then S754_zero neg
      else if 0 <=? E
      then binary_round prec emax neg (Z.to_pos (Zpos m * 10 ^ E)) 0
      else SFdiv prec emax (S754_finite neg m 0)
                           (S754_finite false (Z.to_pos (10 ^ (- E))) 0)
  | _ => S754_zero neg
  end.

Definition eqb (x y : t) : bool :=
  match x, y with
  | S754_zero a, S754_zero b => Bool.eqb a b
  | S754_infinity a, S754_infinity b => Bool.eqb a b
  | S754_nan, S754_nan => true
  | S754_finite a m e, S754_finite b m' e' =>
      Bool.eqb a b && Pos.eqb m m' && Z.eqb e e'
  | _, _ => false
  end.

(** The positive number [m * 2^e] as a fraction. *)
Definition fraction (m : positive) (e : Z) : Z * Z :=
  if 0 <=? e then (Zpos m * 2 ^ e, 1) else (Zpos m, 2 ^ (- e)).

(** [10^p <= num / den] *)
Definition ge_pow10 (num den p : Z) : bool :=
  if 0 <=? p then den * 10 ^ p <=? num else den <=? num * 10 ^ (- p).

(** The decimal exponent [p] of [num / den]: [10^p <= num/den < 10^(p+1)]. *)
Definition decimal_exponent (num den : Z) : Z :=
  let l := Z.log2 num - Z.log2 den in
  let p := (l * 30103) / 100000 in
  if ge_pow10 num den (p + 1) then p + 1
  else if ge_pow10 num den p then p
  else p - 1.

(** [num / den] scaled by [10^(-k)], as quotient and remainder of one
    integer division: [(q, r, d)] with [num / (den * 10^k) = q + r / d]. *)
Definition scaled (num den k : Z) : Z * Z * Z :=
  let n := if 0 <=? k then num else num * 10 ^ (- k) in
  let d := if 0 <=? k then den * 10 ^ k else den in
  (n / d, n mod d, d).

(** The candidate with [n] significant digits, if one of the two
    neighbours of [x = m * 2^e] with [n] digits reads back as [x]; of two
    that do, the nearer, and the even one when they are equally near. *)
Definition candidate (m : positive) (e : Z) (p : Z) (n : Z) : option (Z * Z) :=
  let '(num, den) := fraction m e in
  let k := p - n + 1 in
  let '(lo, r, d) := scaled num den k in
  let x := S754_finite false m e in
  let hi := lo + 1 in
  let ok_lo := eqb (of_decimal false lo k) x in
  let ok_hi := eqb (of_decimal false hi k) x in
  if r =? 0 then Some (lo, k)
  else if ok_lo && ok_hi then
    match 2 * r ?= d with
    | Lt => Some (lo, k)
    | Gt => Some (hi, k)
    | Eq => Some (if Z.even lo then lo else hi, k)
    end
  else if ok_lo then Some (lo, k)
  else if ok_hi then Some (hi, k)
  else None.

(** The shortest candidate, trying 1, 2, ... up to 17 digits. *)
Fixpoint shortest_from (fuel : nat) (m : positive) (e p n : Z) : Z * Z :=
  match fuel with
  | O => let '(num, den) := fraction m e in
         let '(lo, _, _) := scaled num den (p - n + 1) in (lo, p - n + 1)
  | S f =>
      match candidate m e p n with
      | Some c => c
      | None => shortest_from f m e p (n + 1)
      end
  end.

Fixpoint strip_zeros (fuel : nat) (c k : Z) : Z * Z :=
  match fuel with
  | O => (c, k)
  | S f => if (c mod 10 =? 0) && (0 <? c) then strip_zeros f (c / 10) (k + 1)
           else (c, k)
  end.

(** The shortest digits of [m * 2^e] and the position of the decimal
    point: the value is [0.d1 d2 ... dn * 10^decpt]. *)
Definition shortest (m : positive) (e : Z) : pystr * Z :=
  let '(num, den) := fraction m e in
  let p := decimal_exponent num den in
  let '(c, k) := shortest_from 17 m e p 1 in
  let '(c, k) := strip_zeros 18 c k in
  let ds := dec_digits (Z.to_N c) in
  (ds, k + Z.of_nat (length ds)).

Definition zeros (n : Z) : pystr := repeat 48%N (Z.to_nat n).

(** [float.__repr__] on a finite positive number: positional notation
    when [-4 < decpt <= 16], exponent notation otherwise. *)
Definition format_short (ds : pystr) (decpt : Z) : pystr :=
  if (decpt <=? -4) || (16 <? decpt) then
    let ex := decpt - 1 in
    let mant :=
      match ds with
      | [] => []
      | [d] => [d]
      | d :: rest => d :: lit "." ++ rest
      end in
    let exd := dec_digits (Z.to_N (Z.abs ex)) in
    mant ++ lit "e" ++ (if ex <? 0 then lit "-" else lit "+")
         ++ (if Z.abs ex <? 10 then lit "0" else []) ++ exd
  else if decpt <=? 0 then
    lit "0." ++ zeros (- decpt) ++ ds
  else if decpt <? Z.of_nat (length ds) then
    firstn (Z.to_nat decpt) ds ++ lit "." ++ skipn (Z.to_nat decpt) ds
  else
    ds ++ zeros (decpt - Z.of_nat (length ds)) ++ lit ".0".

Definition sign_prefix (neg : bool) : pystr :=
  if neg then lit "-" else [].

(** [float.__repr__] *)
Definition repr (x : t) : pystr :=
  match x with
  | S754_zero s => sign_prefix s ++ lit "0.0"
  | S754_infinity s => sign_prefix s ++ lit "inf"
  | S754_nan => lit "nan"
  | S754_finite s m e =>
      let '(ds, decpt) := shortest m e in
      sign_prefix s ++ format_short ds decpt
  end.

End PyFloat.

(** ** Exceptions *)

(** The exception classes the program can meet, with the part of Python's
    class hierarchy they live in. *)
Inductive exn_class :=
| BaseException | Exception | KeyboardInterrupt
| RuntimeError | RecursionError
| OSError | URLError | HTTPError | TimeoutError | ConnectionError
| ValueError | UnicodeError | UnicodeDecodeError | UnicodeEncodeError
| JSONDecodeError
| LookupError | KeyError | IndexError
| TypeError.

Definition superclass (c : exn_class) : option exn_class :=
  match c with
  | BaseException => None
  | Exception | KeyboardInterrupt => Some BaseException
  | OSError | ValueError | LookupError | TypeError | RuntimeError => Some Exception
  | RecursionError => Some RuntimeError
  | URLError | TimeoutError | ConnectionError => Some OSError
  | HTTPError => Some URLError
  | UnicodeError | JSONDecodeError => Some ValueError
  | UnicodeDecodeError | UnicodeEncodeError => Some UnicodeError
  | KeyError | IndexError => Some LookupError
  end.

Definition exn_class_eqb (c d : exn_class) : bool :=
  match c, d with
  | BaseException, BaseException | Exception, Exception
  | KeyboardInterrupt, KeyboardInterrupt | OSError, OSError
  | RuntimeError, RuntimeError | RecursionError, RecursionError
  | URLError, URLError | HTTPError, HTTPError | TimeoutError, TimeoutError
  | ConnectionError, ConnectionError | ValueError, ValueError
  | UnicodeError, UnicodeError | UnicodeDecodeError, UnicodeDecodeError
  | UnicodeEncodeError, UnicodeEncodeError | JSONDecodeError, JSONDecodeError
  | LookupError, LookupError | KeyError, KeyError | IndexError, IndexError
  | TypeError, TypeError => true
  | _, _ => false
  end.

Fixpoint issubclass_aux (fuel : nat) (c d : exn_class) : bool :=
  exn_class_eqb c d ||
  match fuel, superclass c with
  | S f, Some c' => issubclass_aux f c' d
  | _, _ => false
  end.

(** No class is more than four steps below [BaseException]. *)
Definition issubclass (c d : exn_class) : bool := issubclass_aux 4 c d.

(** A raised exception: an instance of a class together with what [str()]
    gives on it, or the [SystemExit] that [sys.exit] raises. *)
Inductive exn :=
| Raised (c : exn_class) (message : pystr)
| SystemExit (code : Z).

(** [isinstance(e, Exception)]: what [except Exception] catches.
    [SystemExit] derives from [BaseException] only. *)
Definition is_Exception (e : exn) : bool :=
  match e with
  | Raised c _ => issubclass c Exception
  | SystemExit _ => false
  end.

(** [str(e)] *)
Definition exn_str (e : exn) : pystr :=
  match e with
  | Raised _ m => m
  | SystemExit code => int_repr code
  end.

(** The outcome of evaluating a Python expression: a value, or an
    exception raised. *)
Inductive result (A : Type) :=
| Ok (a : A)
| Raise (e : exn).
Arguments Ok {A} a.
Arguments Raise {A} e.

(** ** Python values *)

Set Warnings "-register-all".

(** The values [json.loads] builds.  A [dict] keeps its keys in insertion
    order, which is the order [json.dumps] writes them in. *)
Inductive pyval :=
| VNone
| VBool (b : bool)
| VInt (z : Z)
| VFloat (x : PyFloat.t)
| VStr (s : pystr)
| VList (l : list pyval)
| VDict (d : list (pystr * pyval)).

Fixpoint dict_get (d : list (pystr * pyval)) (k : pystr) : option pyval :=
  match d with
  | [] => None
  | (k', v) :: d' => if pystr_eqb k' k then Some v else dict_get d' k
  end.

(** [d[k] = v]: a key already present keeps its place. *)
Fixpoint dict_set (d : list (pystr * pyval)) (k : pystr) (v : pyval)
  : list (pystr * pyval) :=
  match d with
  | [] => [(k, v)]
  | (k', v') :: d' =>
      if pystr_eqb k' k then (k', v) :: d' else (k', v') :: dict_set d' k v
  end.

(** ** [json.dumps] with its default settings *)
Module JsonEncoder.

Definition backslash : N := 92.

(** One character of [encode_basestring_ascii]: the backslash, the double
    quote and everything outside [' '..'~'] are escaped. *)
Definition escape_char (c : N) : pystr :=
  if c =? backslash then [backslash; backslash]
  else if c =? dquote then [backslash; dquote]
  else if c =? 8 then backslash :: lit "b"
  else if c =? 12 then backslash :: lit "f"
  else if c =? 10 then backslash :: lit "n"
  else if c =? 13 then backslash :: lit "r"
  else if c =? 9 then backslash :: lit "t"
  else if (32 <=? c) && (c <=? 126) then [c]
  else if c <? 65536 then backslash :: lit "u" ++ hex4 c
  else
    let n := c - 65536 in
    let s1 := N.lor 55296 (N.land (N.shiftr n 10) 1023) in
    let s2 := N.lor 56320 (N.land n 1023) in
    (backslash :: lit "u" ++ hex4 s1) ++ (backslash :: lit "u" ++ hex4 s2).

Definition encode_basestring_ascii (s : pystr) : pystr :=
  [dquote] ++ flat_map escape_char s ++ [dquote].

Definition floatstr (x : PyFloat.t) : pystr :=
  match x with
  | S754_nan => lit "NaN"
  | S754_infinity false => lit "Infinity"
  | S754_infinity true => lit "-Infinity"
  | _ => PyFloat.repr x
  end.

(** [sep.join(chunks)] *)
Fixpoint join (sep : pystr) (chunks : list pystr) : pystr :=
  match chunks with
  | [] => []
  | [c] => c
  | c :: cs => c ++ sep ++ join sep cs
  end.

Definition item_separator : pystr := lit ", ".
Definition key_separator : pystr := lit ": ".

Fixpoint encode (o : pyval) : pystr :=
  match o with
  | VNone => lit "null"
  | VBool true => lit "true"
  | VBool false => lit "false"
  | VInt z => int_repr z
  | VFloat x => floatstr x
  | VStr s => encode_basestring_ascii s
  | VList l =>
      lit "[" ++ join item_separator (map encode l) ++ lit "]"
  | VDict d =>
      let member := fun kv : pystr * pyval =>
        encode_basestring_ascii (fst kv) ++ key_separator ++ encode (snd kv) in
      lit "{" ++ join item_separator (map member d) ++ lit "}"
  end.

End JsonEncoder.

(** [json.dumps(o)] *)
Definition json_dumps (o : pyval) : pystr := JsonEncoder.encode o.

(** ** The UTF-8 codec *)
Module Utf8.

Definition byte_of (n : N) : Byte.byte :=
  match Byte.of_N n with
  | Some b => b
  | None => Byte.x00
  end.

Definition is_surrogate (c : N) : bool := (55296 <=? c) && (c <=? 57343).

Definition encode_char (c : N) : pybytes :=
  if c <? 128 then [byte_of c]
  else if c <? 2048 then
    [byte_of (192 + c / 64); byte_of (128 + c mod 64)]
  else if c <? 65536 then
    [byte_of (224 + c / 4096); byte_of (128 + (c / 64) mod 64);
     byte_of (128 + c mod 64)]
  else
    [byte_of (240 + c / 262144); byte_of (128 + (c / 4096) mod 64);
     byte_of (128 + (c / 64) mod 64); byte_of (128 + c mod 64)].

(** How many of the leading characters of [s] are surrogates. *)
Fixpoint surrogate_run (s : pystr) : N :=
  match s with
  | c :: s' => if is_surrogate c then 1 + surrogate_run s' else 0
  | [] => 0
  end.

Definition encode_error (c : N) (pos len : N) : exn :=
  Raised UnicodeEncodeError
    (if len =? 1 then
       lit "'utf-8' codec can't encode character '" ++ JsonEncoder.backslash
         :: lit "u" ++ hex4 c ++ lit "' in position " ++ dec_digits pos
         ++ lit ": surrogates not allowed"
     else
       lit "'utf-8' codec can't encode characters in position "
         ++ dec_digits pos ++ lit "-" ++ dec_digits (pos + len - 1)
         ++ lit ": surrogates not allowed").

Fixpoint encode_from (pos : N) (s : pystr) : result pybytes :=
  match s with
  | [] => Ok []
  | c :: s' =>
      if is_surrogate c then Raise (encode_error c pos (surrogate_run s))
      else match encode_from (pos + 1) s' with
           | Ok bs => Ok (encode_char c ++ bs)
           | Raise e => Raise e
           end
  end.

(** [s.encode('utf-8')] *)
Definition encode (s : pystr) : result pybytes := encode_from 0 s.

Definition is_continuation (b : N) : bool := (128 <=? b) && (b <? 192).

(** What the decoder finds at the head of the input: a character, made
    of the first byte and [more] continuation bytes, or an error. *)
Inductive step :=
| Char (c : N) (more : nat)
| UnexpectedEnd
| InvalidStart
| InvalidContinuation (n : N).

Definition decode_step (ch : N) (rest : pybytes) : step :=
  let bs := map Byte.to_N rest in
  if ch <? 128 then Char ch 0
  else if ch <? 224 then
    if ch <? 194 then InvalidStart
    else match bs with
         | [] => UnexpectedEnd
         | ch2 :: _ =>
             if negb (is_continuation ch2) then InvalidContinuation 1
             else Char (ch * 64 + ch2 - 12416) 1
         end
  else if ch <? 240 then
    match bs with
    | [] => UnexpectedEnd
    | ch2 :: bs2 =>
        if negb (is_continuation ch2)
           || (if ch2 <? 160 then ch =? 224 else ch =? 237)
        then InvalidContinuation 1
        else match bs2 with
             | [] => UnexpectedEnd
             | ch3 :: _ =>
                 if negb (is_continuation ch3) then InvalidContinuation 2
                 else Char (ch * 4096 + ch2 * 64 + ch3 - 925824) 2
             end
    end
  else if ch <? 245 then
    match bs with
    | [] => UnexpectedEnd
    | ch2 :: bs2 =>
        if negb (is_continuation ch2)
           || (if ch2 <? 144 then ch =? 240 else ch =? 244)
        then InvalidContinuation 1
        else match bs2 with
             | [] => UnexpectedEnd
             | ch3 :: bs3 =>
                 if negb (is_continuation ch3) then InvalidContinuation 2
                 else match bs3 with
                      | [] => UnexpectedEnd
                      | ch4 :: _ =>
                          if negb (is_continuation ch4)
                          then InvalidContinuation 3
                          else Char (ch * 262144 + ch2 * 4096 + ch3 * 64 + ch4
                                     - 63447168) 3
                      end
             end
    end
  else InvalidStart.

Definition decode_error (b : N) (start stop : N) (reason : pystr) : exn :=
  Raised UnicodeDecodeError
    (if stop =? start + 1 then
       lit "'utf-8' codec can't decode byte 0x" ++ hex2 b
         ++ lit " in position " ++ dec_digits start ++ lit ": " ++ reason
     else
       lit "'utf-8' codec can't decode bytes in position "
         ++ dec_digits start ++ lit "-" ++ dec_digits (stop - 1)
         ++ lit ": " ++ reason).

(** Every step consumes at least one byte, so as many steps as there are
    bytes decode the whole input. *)
Fixpoint decode_from (fuel : nat) (pos : N) (bs : pybytes) : result pystr :=
  match bs with
  | [] => Ok []
  | b :: rest =>
      match fuel with
      | O => Ok []
      | S f =>
          let ch := Byte.to_N b in
          match decode_step ch rest with
          | Char c more =>
              match decode_from f (pos + 1 + N.of_nat more) (skipn more rest) with
              | Ok s => Ok (c :: s)
              | Raise e => Raise e
              end
          | UnexpectedEnd =>
              Raise (decode_error ch pos (pos + N.of_nat (List.length bs))
                       (lit "unexpected end of data"))
          | InvalidStart =>
              Raise (decode_error ch pos (pos + 1) (lit "invalid start byte"))
          | InvalidContinuation n =>
              Raise (decode_error ch pos (pos + n)
                       (lit "invalid continuation byte"))
          end
      end
  end.

(** [bs.decode('utf-8')] *)
Definition decode (bs : pybytes) : result pystr :=
  decode_from (List.length bs) 0 bs.

End Utf8.

(** ** [json.loads] with its default settings *)
Module JsonDecoder.

Import JsonEncoder.

(** The result of scanning at a position: a value with what is left of
    the document and the position reached, or the message and position
    of a [JSONDecodeError]. *)
Inductive scan (A : Type) :=
| Scanned (a : A) (rest : pystr) (pos : N)
| Failed (msg : pystr) (pos : N)
| OutOfFuel.
Arguments Scanned {A} a rest pos.
Arguments Failed {A} msg pos.
Arguments OutOfFuel {A}.

Definition is_whitespace (c : N) : bool :=
  (c =? 32) || (c =? 9) || (c =? 10) || (c =? 13).

Fixpoint skip_whitespace (rest : pystr) (pos : N) : pystr * N :=
  match rest with
  | c :: r => if is_whitespace c then skip_whitespace r (pos + 1)
              else (rest, pos)
  | [] => ([], pos)
  end.

Definition is_digit (c : N) : bool := (48 <=? c) && (c <=? 57).

Definition hex_value (c : N) : option N :=
  if is_digit c then Some (c - 48)
  else if (97 <=? c) && (c <=? 102) then Some (c - 87)
  else if (65 <=? c) && (c <=? 70) then Some (c - 55)
  else None.

Definition hex4_value (a b c d : N) : option N :=
  match hex_value a, hex_value b, hex_value c, hex_value d with
  | Some x, Some y, Some z, Some w => Some (((x * 16 + y) * 16 + z) * 16 + w)
  | _, _, _, _ => None
  end.

(** The character a one-letter escape stands for. *)
Definition unescape (c : N) : option N :=
  if c =? dquote then Some dquote
  else if c =? backslash then Some backslash
  else if c =? 47 then Some 47
  else if c =? 98 then Some 8
  else if c =? 102 then Some 12
  else if c =? 110 then Some 10
  else if c =? 114 then Some 13
  else if c =? 116 then Some 9
  else None.

Definition is_high_surrogate (c : N) : bool := (55296 <=? c) && (c <=? 56319).
Definition is_low_surrogate (c : N) : bool := (56320 <=? c) && (c <=? 57343).

Definition join_surrogates (hi lo : N) : N :=
  65536 + N.lor (N.shiftl (hi - 55296) 10) (lo - 56320).

Definition letter_u : N := 117.

Definition backslash_uXXXX_message : pystr :=
  lit "Invalid " ++ backslash :: lit "uXXXX escape".

(** [scanstring]: [rest] starts after the opening quote, which is at
    [begin]; [acc] holds the characters read so far, last first.  The
    scanner takes the four digits of an escape only when a character
    follows them, as none can close the string otherwise. *)
Fixpoint scanstring (rest : pystr) (pos begin : N) (acc : pystr) : scan pystr :=
  match rest with
  | [] => Failed (lit "Unterminated string starting at") begin
  | c :: r =>
      if c =? dquote then Scanned (rev acc) r (pos + 1)
      else if c =? backslash then
        match r with
        | [] => Failed (lit "Unterminated string starting at") begin
        | e :: r1 =>
            if e =? letter_u then
              match r1 with
              | h1 :: h2 :: h3 :: h4 :: ((_ :: _) as r2) =>
                  match hex4_value h1 h2 h3 h4 with
                  | None => Failed backslash_uXXXX_message (pos + 1)
                  | Some u =>
                      match r2 with
                      | b :: u' :: g1 :: g2 :: g3 :: g4 :: ((_ :: _) as r3) =>
                          if is_high_surrogate u && (b =? backslash)
                             && (u' =? letter_u)
                          then
                            match hex4_value g1 g2 g3 g4 with
                            | None => Failed backslash_uXXXX_message (pos + 7)
                            | Some u2 =>
                                if is_low_surrogate u2
                                then scanstring r3 (pos + 12) begin
                                       (join_surrogates u u2 :: acc)
                                else scanstring r2 (pos + 6) begin (u :: acc)
                            end
                          else scanstring r2 (pos + 6) begin (u :: acc)
                      | _ => scanstring r2 (pos + 6) begin (u :: acc)
                      end
                  end
              | _ => Failed backslash_uXXXX_message (pos + 1)
              end
            else
              match unescape e with
              | Some ch => scanstring r1 (pos + 2) begin (ch :: acc)
              | None => Failed (lit "Invalid " ++ backslash :: lit "escape") pos
              end
        end
      else if c <=? 31 then Failed (lit "Invalid control character at") pos
      else scanstring r (pos + 1) begin (c :: acc)
  end.

(** *** Numbers

    An optional minus sign, an integer part, an optional fraction and an
    optional exponent, as the scanner's regular expression has them. *)

(** The leading digits of [rest], and what follows them. *)
Fixpoint take_digits (rest : pystr) : pystr * pystr :=
  match rest with
  | c :: r =>
      if is_digit c
      then let '(ds, r') := take_digits r in (c :: ds, r')
      else ([], rest)
  | [] => ([], [])
  end.

(** The number a string of digits denotes. *)
Definition digits_value (ds : pystr) : Z :=
  fold_left (fun acc c => (acc * 10 + Z.of_N (c - 48))%Z) ds 0%Z.

(** The integer part: a single [0], or digits that start with [1..9]. *)
Definition integer_part (rest : pystr) : option (pystr * pystr) :=
  match rest with
  | c :: r =>
      if c =? 48 then Some ([c], r)
      else if is_digit c then Some (take_digits rest)
      else None
  | [] => None
  end.

(** The fraction: a dot and at least one digit. *)
Definition fraction_part (rest : pystr) : pystr * pystr :=
  match rest with
  | c :: ((d :: _) as r) =>
      if (c =? 46) && is_digit d then take_digits r else ([], rest)
  | _ => ([], rest)
  end.

(** The exponent: [e] or [E], an optional sign and at least one digit;
    [None] when there is none. *)
Definition exponent_part (rest : pystr) : option (Z * N) * pystr :=
  match rest with
  | c :: r =>
      if (c =? 101) || (c =? 69) then
        let '(neg, signed, r1) :=
          match r with
          | s :: r' => if s =? 45 then (true, 1, r')
                       else if s =? 43 then (false, 1, r')
                       else (false, 0, r)
          | [] => (false, 0, r)
          end in
        match take_digits r1 with
        | ([], _) => (None, rest)
        | (ds, r2) =>
            let v := digits_value ds in
            (Some (if neg then (- v)%Z else v,
                   1 + signed + N.of_nat (List.length ds)), r2)
        end
      else (None, rest)
  | [] => (None, rest)
  end.

(** A number at the head of [rest]: an [int] when it has neither fraction
    nor exponent, a [float] otherwise. *)
Definition match_number (rest : pystr) (pos : N) : option (pyval * pystr * N) :=
  let '(neg, r0, p0) :=
    match rest with
    | c :: r => if c =? 45 then (true, r, pos + 1) else (false, rest, pos)
    | [] => (false, rest, pos)
    end in
  match integer_part r0 with
  | None => None
  | Some (ints, r1) =>
      let p1 := p0 + N.of_nat (List.length ints) in
      let '(fracs, r2) := fraction_part r1 in
      let p2 := match fracs with
                | [] => p1
                | _ => p1 + 1 + N.of_nat (List.length fracs)
                end in
      let '(ex, r3) := exponent_part r2 in
      match fracs, ex with
      | [], None =>
          let v := digits_value ints in
          Some (VInt (if neg then (- v)%Z else v), r3, p2)
      | _, _ =>
          let '(e, p3) := match ex with
                          | Some (e, n) => (e, p2 + n)
                          | None => (0%Z, p2)
                          end in
          Some (VFloat (PyFloat.of_decimal neg
                          (digits_value (ints ++ fracs))
                          (e - Z.of_nat (List.length fracs))%Z), r3, p3)
      end
  end.

(** [rest] starts with the characters of [word]; what follows them. *)
Fixpoint strip_prefix (word rest : pystr) : option pystr :=
  match word, rest with
  | [], _ => Some rest
  | w :: word', c :: rest' =>
      if w =? c then strip_prefix word' rest' else None
  | _ :: _, [] => None
  end.

Definition constants : list (pystr * pyval) :=
  [ (lit "null", VNone); (lit "true", VBool true); (lit "false", VBool false);
    (lit "NaN", VFloat S754_nan);
    (lit "Infinity", VFloat (S754_infinity false));
    (lit "-Infinity", VFloat (S754_infinity true)) ].

Fixpoint match_constant (cs : list (pystr * pyval)) (rest : pystr) (pos : N)
  : option (pyval * pystr * N) :=
  match cs with
  | [] => None
  | (word, v) :: cs' =>
      match strip_prefix word rest with
      | Some r => Some (v, r, pos + N.of_nat (List.length word))
      | None => match_constant cs' rest pos
      end
  end.

Definition expecting_comma : pystr := lit "Expecting ',' delimiter".
Definition expecting_colon : pystr := lit "Expecting ':' delimiter".
Definition expecting_name : pystr :=
  lit "Expecting property name enclosed in double quotes".
Definition expecting_value : pystr := lit "Expecting value".

(** *** The scanner

    [scan_once] reads one JSON value; [array_items] is the loop of
    [JSONArray], entered where an item is expected; [object_items] is the
    loop of [JSONObject], entered where a key is expected.  Each call
    spends one unit of [fuel]. *)
Fixpoint scan_once (fuel : nat) (rest : pystr) (pos : N) : scan pyval :=
  match fuel with
  | O => OutOfFuel
  | S f =>
      match rest with
      | [] => Failed expecting_value pos
      | c :: r =>
          if c =? dquote then
            match scanstring r (pos + 1) pos [] with
            | Scanned s r' p' => Scanned (VStr s) r' p'
            | Failed m p => Failed m p
            | OutOfFuel => OutOfFuel
            end
          else if c =? 123 then
            let '(r1, p1) := skip_whitespace r (pos + 1) in
            match r1 with
            | c1 :: r2 =>
                if c1 =? 125 then Scanned (VDict []) r2 (p1 + 1)
                else object_items f r1 p1 []
            | [] => object_items f r1 p1 []
            end
          else if c =? 91 then
            let '(r1, p1) := skip_whitespace r (pos + 1) in
            match r1 with
            | c1 :: r2 =>
                if c1 =? 93 then Scanned (VList []) r2 (p1 + 1)
                else array_items f r1 p1 []
            | [] => array_items f r1 p1 []
            end
          else
            match match_constant constants rest pos with
            | Some (v, r', p') => Scanned v r' p'
            | None =>
                match match_number rest pos with
                | Some (v, r', p') => Scanned v r' p'
                | None => Failed expecting_value pos
                end
            end
      end
  end

with array_items (fuel : nat) (rest : pystr) (pos : N) (acc : list pyval)
  : scan pyval :=
  match fuel with
  | O => OutOfFuel
  | S f =>
      match scan_once f rest pos with
      | Scanned v r1 p1 =>
          let '(r2, p2) := skip_whitespace r1 p1 in
          match r2 with
          | c :: r3 =>
              if c =? 93 then Scanned (VList (rev (v :: acc))) r3 (p2 + 1)
              else if c =? 44 then
                let '(r4, p4) := skip_whitespace r3 (p2 + 1) in
                array_items f r4 p4 (v :: acc)
              else Failed expecting_comma p2
          | [] => Failed expecting_comma p2
          end
      | Failed m p => Failed m p
      | OutOfFuel => OutOfFuel
      end
  end

with object_items (fuel : nat) (rest : pystr) (pos : N)
                  (acc : list (pystr * pyval)) : scan pyval :=
  match fuel with
  | O => OutOfFuel
  | S f =>
      match rest with
      | [] => Failed expecting_name pos
      | c :: r =>
          if negb (c =? dquote) then Failed expecting_name pos
          else
            match scanstring r (pos + 1) pos [] with
            | Scanned key r1 p1 =>
                let '(r2, p2) := skip_whitespace r1 p1 in
                match r2 with
                | [] => Failed expecting_colon p2
                | c2 :: r3 =>
                    if negb (c2 =? 58) then Failed expecting_colon p2
                    else
                      let '(r4, p4) := skip_whitespace r3 (p2 + 1) in
                      match scan_once f r4 p4 with
                      | Scanned v r5 p5 =>
                          let d := dict_set acc key v in
                          let '(r6, p6) := skip_whitespace r5 p5 in
                          match r6 with
                          | c3 :: r7 =>
                              if c3 =? 125 then Scanned (VDict d) r7 (p6 + 1)
                              else if c3 =? 44 then
                                let '(r8, p8) := skip_whitespace r7 (p6 + 1) in
                                object_items f r8 p8 d
                              else Failed expecting_comma p6
                          | [] => Failed expecting_comma p6
                          end
                      | Failed m p => Failed m p
                      | OutOfFuel => OutOfFuel
                      end
                end
            | Failed m p => Failed m p
            | OutOfFuel => OutOfFuel
            end
      end
  end.

(** *** [JSONDecodeError] *)

(** Line and column of position [pos] in [doc]: [doc.count('\n', 0, pos) + 1]
    and [pos - doc.rfind('\n', 0, pos)]. *)
Fixpoint line_column (doc : pystr) (n : nat) (line col : N) : N * N :=
  match n, doc with
  | S n', c :: doc' =>
      if c =? 10 then line_column doc' n' (line + 1) 1
      else line_column doc' n' line (col + 1)
  | _, _ => (line, col)
  end.

Definition decode_error (msg doc : pystr) (pos : N) : exn :=
  let '(lineno, colno) := line_column doc (N.to_nat pos) 1 1 in
  Raised JSONDecodeError
    (msg ++ lit ": line " ++ dec_digits lineno ++ lit " column "
         ++ dec_digits colno ++ lit " (char " ++ dec_digits pos ++ lit ")").

Definition byte_order_mark : N := 65279.

(** Two units of fuel for every character are more than the scanner
    spends. *)
Definition fuel_for (s : pystr) : nat := 2 * List.length s + 2.

(** [json.loads(s)] for a [str]. *)
Definition loads (s : pystr) : result pyval :=
  match s with
  | c :: _ =>
      if c =? byte_order_mark
      then Raise (decode_error
                    (lit "Unexpected UTF-8 BOM (decode using utf-8-sig)") s 0)
      else
        let '(r0, p0) := skip_whitespace s 0 in
        match scan_once (fuel_for s) r0 p0 with
        | Scanned v r1 p1 =>
            let '(r2, p2) := skip_whitespace r1 p1 in
            match r2 with
            | [] => Ok v
            | _ :: _ => Raise (decode_error (lit "Extra data") s p2)
            end
        | Failed m p => Raise (decode_error m s p)
        | OutOfFuel =>
            Raise (Raised RecursionError (lit "maximum recursion depth exceeded"))
        end
  | [] => Raise (decode_error expecting_value s 0)
  end.

End JsonDecoder.

(** [json.loads(s)] *)
Definition json_loads (s : pystr) : result pyval := JsonDecoder.loads s.

(** ** Subscripting *)

(** [repr(s)] for a [str].  Characters beyond ASCII are written as they
    are, which is what Python does for the printable ones; the script only
    ever needs the [repr] of its own literal ['embeddings']. *)
Module StrRepr.

Import JsonEncoder.

Definition contains (c : N) (s : pystr) : bool := existsb (N.eqb c) s.

Definition quote_for (s : pystr) : N :=
  if contains apostrophe s && negb (contains dquote s)
  then dquote else apostrophe.

Definition escape (quote c : N) : pystr :=
  if (c =? quote) || (c =? backslash) then [backslash; c]
  else if c =? 9 then backslash :: lit "t"
  else if c =? 10 then backslash :: lit "n"
  else if c =? 13 then backslash :: lit "r"
  else if (c <? 32) || (c =? 127) then backslash :: lit "x" ++ hex2 c
  else [c].

Definition repr (s : pystr) : pystr :=
  let q := quote_for s in
  [q] ++ flat_map (escape q) s ++ [q].

End StrRepr.

(** What the script subscripts with: a string key or an integer index. *)
Inductive subscript :=
| Key (k : pystr)
| Index (i : Z).

Definition subscript_repr (k : subscript) : pystr :=
  match k with
  | Key s => StrRepr.repr s
  | Index i => int_repr i
  end.

Definition type_name (o : pyval) : pystr :=
  match o with
  | VNone => lit "NoneType"
  | VBool _ => lit "bool"
  | VInt _ => lit "int"
  | VFloat _ => lit "float"
  | VStr _ => lit "str"
  | VList _ => lit "list"
  | VDict _ => lit "dict"
  end.

(** [l[i]] on a sequence: a negative index counts from the end. *)
Definition sequence_item {A : Type} (l : list A) (i : Z) : option A :=
  let n := Z.of_nat (List.length l) in
  let j := if (i <? 0)%Z then (i + n)%Z else i in
  if (j <? 0)%Z then None else nth_error l (Z.to_nat j).

(** [o[k]] *)
Definition getitem (o : pyval) (k : subscript) : result pyval :=
  match o, k with
  | VDict d, Key s =>
      match dict_get d s with
      | Some v => Ok v
      | None => Raise (Raised KeyError (subscript_repr k))
      end
  | VDict _, Index _ =>
      (* the keys of a dict read from JSON are strings *)
      Raise (Raised KeyError (subscript_repr k))
  | VList l, Index i =>
      match sequence_item l i with
      | Some v => Ok v
      | None => Raise (Raised IndexError (lit "list index out of range"))
      end
  | VList _, Key _ =>
      Raise (Raised TypeError
               (lit "list indices must be integers or slices, not str"))
  | VStr s, Index i =>
      match sequence_item s i with
      | Some c => Ok (VStr [c])
      | None => Raise (Raised IndexError (lit "string index out of range"))
      end
  | VStr _, Key _ =>
      Raise (Raised TypeError (lit "string indices must be integers, not 'str'"))
  | (VNone | VBool _ | VInt _ | VFloat _), _ =>
      Raise (Raised TypeError
               (lit "'" ++ type_name o ++ lit "' object is not subscriptable"))
  end.

(** ** The world the script runs in *)

(** A [urllib.request.Request] as the script builds it. *)
Record Request := {
  full_url : pystr;
  data : pybytes;
  headers : list (pystr * pystr);
  method : pystr
}.

(** The response object [urlopen] returns: what [response.read()] gives. *)
Record Response := {
  read : result pybytes
}.

(** [urllib.request.urlopen(req, timeout=t)]: the service and the network
    between it and the script.  It either returns a response or raises
    ([URLError], [HTTPError] on an error status, [TimeoutError], ...). *)
Definition Network := Request -> Z -> result Response.

(** What an execution leaves behind: the calls made to [urlopen], oldest
    first, and the text written to the two output streams. *)
Record World := {
  requests : list (Request * Z);
  stdout : pystr;
  stderr : pystr
}.

Definition initial_world : World :=
  {| requests := []; stdout := []; stderr := [] |}.

(** Statements: they act on the world and return a value or raise. *)
Definition M (A : Type) : Type := World -> result A * World.

Definition ret {A} (a : A) : M A := fun w => (Ok a, w).

Definition bind {A B} (m : M A) (k : A -> M B) : M B :=
  fun w =>
    match m w with
    | (Ok a, w') => k a w'
    | (Raise e, w') => (Raise e, w')
    end.

(** An expression that touches nothing in the world. *)
Definition lift {A} (r : result A) : M A := fun w => (r, w).

Declare Scope py_scope.
Delimit Scope py_scope with py.
Notation "x <- m ;; k" := (bind m (fun x => k))
  (at level 61, m at next level, right associativity) : py_scope.
Notation "m ;; k" := (bind m (fun _ => k))
  (at level 61, right associativity) : py_scope.
Local Open Scope py_scope.

(** [try: body  except Exception as e: handler(e)] *)
Definition try_except {A} (body : M A) (handler : exn -> M A) : M A :=
  fun w =>
    match body w with
    | (Ok a, w') => (Ok a, w')
    | (Raise e, w') =>
        if is_Exception e then handler e w' else (Raise e, w')
    end.

Definition newline : pystr := [10].

(** [print(s)] *)
Definition print (s : pystr) : M unit :=
  fun w => (Ok tt, {| requests := requests w;
                      stdout := stdout w ++ s ++ newline;
                      stderr := stderr w |}).

(** [print(s, file=sys.stderr)] *)
Definition print_stderr (s : pystr) : M unit :=
  fun w => (Ok tt, {| requests := requests w;
                      stdout := stdout w;
                      stderr := stderr w ++ s ++ newline |}).

(** [sys.exit(code)] *)
Definition sys_exit {A} (code : Z) : M A :=
  fun w => (Raise (SystemExit code), w).

(** One call of [urlopen], recorded in the world. *)
Definition call_urlopen (urlopen : Network) (req : Request) (timeout : Z)
  : M Response :=
  fun w => (urlopen req timeout,
            {| requests := requests w ++ [(req, timeout)];
               stdout := stdout w;
               stderr := stderr w |}).

(** ** The script *)

Definition default_model : pystr := lit "mxbai-embed-large".
Definition default_base_url : pystr := lit "http://localhost:11434".

(** [def embed(text, model="mxbai-embed-large",
               base_url="http://localhost:11434")].
    Leaving the [with] block closes the response on every path; nothing in
    the script observes it. *)
Definition embed (urlopen : Network) (text model base_url : pystr) : M pyval :=
  let url := base_url ++ lit "/api/embed" in
  data <- lift (Utf8.encode
                  (json_dumps (VDict [(lit "model", VStr model);
                                      (lit "input", VStr text)]))) ;;
  let req := {| full_url := url;
                data := data;
                headers := [(lit "Content-Type", lit "application/json")];
                method := lit "POST" |} in
  response <- call_urlopen urlopen req 60 ;;
  body <- lift (read response) ;;
  s <- lift (Utf8.decode body) ;;
  result <- lift (json_loads s) ;;
  embeddings <- lift (getitem result (Key (lit "embeddings"))) ;;
  lift (getitem embeddings (Index 0)).

(** [sys.argv[i]] *)
Definition argv_item (argv : list pystr) (i : Z) : result pystr :=
  match sequence_item argv i with
  | Some s => Ok s
  | None => Raise (Raised IndexError (lit "list index out of range"))
  end.

(** The block under [if __name__ == "__main__"]. *)
Definition main (urlopen : Network) (argv : list pystr) : M unit :=
  (if (Z.of_nat (List.length argv) <? 2)%Z
   then print_stderr (lit "Usage: ollama-embed.py <text>") ;; sys_exit 1
   else ret tt) ;;
  text <- lift (argv_item argv 1) ;;
  try_except
    (embedding <- embed urlopen text default_model default_base_url ;;
     print (json_dumps embedding))
    (fun e => print_stderr (lit "Error: " ++ exn_str e) ;; sys_exit 1).

(** How the process ends: with an exit status, or on an exception nothing
    caught, which the interpreter reports with a traceback. *)
Inductive termination :=
| Exit (status : Z)
| Traceback (e : exn).

(** Running the script with [argv] against [urlopen]: falling off the end
    of the script exits with status 0, [SystemExit] with its code. *)
Definition run (urlopen : Network) (argv : list pystr) : termination * World :=
  match main urlopen argv initial_world with
  | (Ok _, w) => (Exit 0, w)
  | (Raise (SystemExit code), w) => (Exit code, w)
  | (Raise e, w) => (Traceback e, w)
  end.

(** * Vocabulary of the statements *)

(** The bytes of a string of ASCII characters. *)
Definition ascii_bytes (s : pystr) : pybytes := map Utf8.byte_of s.

(** The object [{"model": model, "input": text}]. *)
Definition request_object (text model : pystr) : pyval :=
  VDict [(lit "model", VStr model); (lit "input", VStr text)].

(** The request [embed] builds. *)
Definition embed_request (text model base_url : pystr) : Request :=
  {| full_url := base_url ++ lit "/api/embed";
     data := ascii_bytes (json_dumps (request_object text model));
     headers := [(lit "Content-Type", lit "application/json")];
     method := lit "POST" |}.

(** The world after one more call of [urlopen]. *)
Definition sent (w : World) (req : Request) (timeout : Z) : World :=
  {| requests := requests w ++ [(req, timeout)];
     stdout := stdout w;
     stderr := stderr w |}.

(** What [embed] makes of a response: the body read, decoded, parsed and
    subscripted. *)
Definition response_embedding (response : Response) : result pyval :=
  match read response with
  | Raise e => Raise e
  | Ok body =>
      match Utf8.decode body with
      | Raise e => Raise e
      | Ok s =>
          match json_loads s with
          | Raise e => Raise e
          | Ok result =>
              match getitem result (Key (lit "embeddings")) with
              | Raise e => Raise e
              | Ok embeddings => getitem embeddings (Index 0)
              end
          end
      end
  end.

(** A service that answers every request with the same body. *)
Definition responding (body : pybytes) : Network :=
  fun _ _ => Ok {| read := Ok body |}.

(** A service that fails every request with the same exception. *)
Definition failing (e : exn) : Network :=
  fun _ _ => Raise e.

(** A list of [float]s, what the script calls an embedding. *)
Definition is_float (v : pyval) : bool :=
  match v with
  | VFloat _ => true
  | _ => false
  end.

Definition is_float_list (v : pyval) : bool :=
  match v with
  | VList l => forallb is_float l
  | _ => false
  end.

(** A string of ASCII characters. *)
Definition is_ascii (s : pystr) : Prop := Forall (fun c => c < 128) s.

(** The worlds the script can leave behind: after the usage message, after
    printing an embedding, after reporting an error. *)
Definition usage_world : World :=
  {| requests := [];
     stdout := [];
     stderr := lit "Usage: ollama-embed.py <text>" ++ newline |}.

Definition success_world (w : World) (embedding : pyval) : World :=
  {| requests := requests w;
     stdout := stdout w ++ json_dumps embedding ++ newline;
     stderr := stderr w |}.

Definition error_world (w : World) (e : exn) : World :=
  {| requests := requests w;
     stdout := stdout w;
     stderr := stderr w ++ (lit "Error: " ++ exn_str e) ++ newline |}.

(** A scan that ran to its end and, where it succeeded, left less than it
    was given. *)
Definition shorter {A} (rest : pystr) (r : JsonDecoder.scan A) : Prop :=
  match r with
  | JsonDecoder.Scanned _ rest' _ => (List.length rest' < List.length rest)%nat
  | JsonDecoder.Failed _ _ => True
  | JsonDecoder.OutOfFuel => False
  end.

(** The exceptions the script's own code raises on a response it could
    read. *)
Definition response_failure_kinds : list exn_class :=
  [UnicodeDecodeError; JSONDecodeError; KeyError; IndexError; TypeError].

(** A network whose failures are all instances of [Exception], as those of
    [urllib] are. *)
Definition raises_exceptions_only (urlopen : Network) : Prop :=
  (forall req timeout e, urlopen req timeout = Raise e -> is_Exception e = true)
  /\ (forall req timeout response e,
         urlopen req timeout = Ok response ->
         read response = Raise e -> is_Exception e = true).

(** The failure kinds the specification lists. *)
Definition listed_failure_kinds : list exn_class :=
  [URLError; TimeoutError; HTTPError; UnicodeDecodeError; JSONDecodeError;
   KeyError; IndexError; TypeError].

(** The body [{"embeddings": [[0.1, 0.2, 0.3]]}] of the service's answer. *)
Definition hello_body : pybytes :=
  ascii_bytes (jlit "{'embeddings': [[0.1, 0.2, 0.3]]}").

(** A body with two embeddings, and one with none. *)
Definition two_embeddings_body : pybytes :=
  ascii_bytes (jlit "{'embeddings': [[1.5, 2.5], [3.5]]}").

Definition no_embeddings_body : pybytes :=
  ascii_bytes (jlit "{'embeddings': []}").

(** Two bodies whose first embedding the script does not look into: a
    string, and the empty array. *)
Definition string_embedding_body : pybytes :=
  ascii_bytes (jlit "{'embeddings': ['not a vector']}").

Definition empty_embedding_body : pybytes :=
  ascii_bytes (jlit "{'embeddings': [[]]}").

(** ** Vocabulary of the further properties *)

(** A [bytes] object of ASCII bytes. *)
Definition ascii_only (bs : pybytes) : Prop :=
  Forall (fun b => Byte.to_N b < 128) bs.

(** What [embeddings[0]] gives for an [embeddings] that is no array. *)
Definition first_of_non_array (v : pyval) : result pyval :=
  match v with
  | VStr (c :: _) => Ok (VStr [c])
  | VStr [] => Raise (Raised IndexError (lit "string index out of range"))
  | VDict _ => Raise (Raised KeyError (lit "0"))
  | VNone =>
      Raise (Raised TypeError (lit "'NoneType' object is not subscriptable"))
  | VBool _ =>
      Raise (Raised TypeError (lit "'bool' object is not subscriptable"))
  | VInt _ =>
      Raise (Raised TypeError (lit "'int' object is not subscriptable"))
  | VFloat _ =>
      Raise (Raised TypeError (lit "'float' object is not subscriptable"))
  | VList l => getitem (VList l) (Index 0)
  end.

(** A [dict]. *)
Definition is_dict (v : pyval) : bool :=
  match v with
  | VDict _ => true
  | _ => false
  end.

(** The response of a network to the request [embed] sends parses as [v]. *)
Definition parses_as (urlopen : Network) (text model base_url : pystr)
                     (v : pyval) : Prop :=
  exists (response : Response) (body : pybytes) (s : pystr),
    urlopen (embed_request text model base_url) 60%Z = Ok response
    /\ read response = Ok body
    /\ Utf8.decode body = Ok s
    /\ json_loads s = Ok v.

(** The world after the script reported the exception [e] of its one
    request for [text]. *)
Definition reported (text : pystr) (e : exn) : World :=
  {| requests := [(embed_request text default_model default_base_url, 60%Z)];
     stdout := [];
     stderr := lit "Error: " ++ exn_str e ++ newline |}.

(** A line of printable ASCII characters: no control character, so no
    line break, and nothing beyond [~]. *)
Definition printable_line (s : pystr) : Prop :=
  Forall (fun c => 32 <= c /\ c <= 126) s.

(** A text of code points up to U+10FFFF none of which is a high
    surrogate: every [str] built from well-formed Unicode is one, and so is
    a command-line argument, in which undecodable bytes become low
    surrogates. *)
Definition no_high_surrogate (s : pystr) : Prop :=
  Forall (fun c => c <= 1114111 /\ JsonDecoder.is_high_surrogate c = false) s.

(** A member ["key": "val"] of an object, as [json.dumps] writes it. *)
Definition member (key val rest : pystr) : pystr :=
  dquote :: flat_map JsonEncoder.escape_char key
    ++ dquote :: 58 :: 32 :: dquote :: flat_map JsonEncoder.escape_char val
    ++ dquote :: rest.

(** Bodies for the edge cases: an object without the key, [embeddings] a
    string, an array at top level, a byte that is no UTF-8. *)
Definition no_key_body : pybytes :=
  ascii_bytes (jlit "{'embedding': [[0.5]], 'model': 'm'}").

Definition string_embeddings_body : pybytes :=
  ascii_bytes (jlit "{'embeddings': 'vector'}").

Definition array_body : pybytes := ascii_bytes (jlit "[[0.1, 0.2]]").

Definition latin1_body : pybytes :=
  ascii_bytes (jlit "{'embeddings': [[1.0]], 'note': 'caf") ++ [Byte.xe9]
    ++ ascii_bytes (jlit "'}").

(** A text with an accent, a character beyond U+FFFF, a quote, a backslash
    and a line break. *)
Definition awkward_text : pystr := [233; 128512; 34; 92; 10].

(** * Properties *)

(** ** Basic facts *)

Lemma pystr_eqb_eq a b : pystr_eqb a b = true <-> a = b.
Proof.
  unfold pystr_eqb. destruct (list_eq_dec N.eq_dec a b); split; congruence.
Qed.

(** ** Enough fuel for digits and for the UTF-8 decoder *)

Lemma pos_size_nat p : Pos.size_nat p = Pos.to_nat (Pos.size p).
Proof.
  induction p as [p IH | p IH |]; simpl;
    rewrite ?Pos2Nat.inj_succ, ?IH; reflexivity.
Qed.

Lemma size_nat_bound n : n < 2 ^ N.of_nat (N.size_nat n).
Proof.
  destruct n as [| p]; [reflexivity |].
  cbn [N.size_nat]. rewrite pos_size_nat, positive_nat_N.
  exact (N.size_gt (Npos p)).
Qed.

Lemma digits_value_snoc ds d :
  JsonDecoder.digits_value (ds ++ [d])
  = (JsonDecoder.digits_value ds * 10 + Z.of_N (d - 48))%Z.
Proof. unfold JsonDecoder.digits_value. rewrite fold_left_app. reflexivity. Qed.

Lemma dec_digits_aux_S f n acc :
  dec_digits_aux (S f) n acc
  = if n / 10 =? 0 then (48 + n mod 10) :: acc
    else dec_digits_aux f (n / 10) ((48 + n mod 10) :: acc).
Proof. reflexivity. Qed.

(** [dec_digits_aux] puts the digits of [n] in front of [acc], all of them
    when [n] is below [2 ^ fuel]. *)
Lemma dec_digits_aux_value fuel : forall n acc,
  n < 2 ^ N.of_nat fuel ->
  exists ds, dec_digits_aux (S fuel) n acc = ds ++ acc
             /\ JsonDecoder.digits_value ds = Z.of_N n.
Proof.
  induction fuel as [| f IH]; intros n acc Hn.
  - assert (n = 0) by (cbn in Hn; lia). subst n.
    exists [48]. split; reflexivity.
  - rewrite dec_digits_aux_S.
    destruct (n / 10 =? 0) eqn:Hq.
    + apply N.eqb_eq in Hq.
      exists [48 + n mod 10]. split; [reflexivity |].
      change [48 + n mod 10] with ([] ++ [48 + n mod 10]).
      rewrite digits_value_snoc.
      change (JsonDecoder.digits_value []) with 0%Z.
      rewrite (N.add_comm 48), N.add_sub.
      rewrite (N.div_mod n 10 ltac:(discriminate)) at 2.
      rewrite Hq, N.mul_0_r. reflexivity.
    + apply N.eqb_neq in Hq.
      assert (Hlt : n / 10 < 2 ^ N.of_nat f).
      { rewrite Nat2N.inj_succ, N.pow_succ_r' in Hn.
        apply N.Div0.div_lt_upper_bound. lia. }
      destruct (IH (n / 10) ((48 + n mod 10) :: acc) Hlt) as [ds [Hds Hval]].
      exists (ds ++ [48 + n mod 10]). split.
      * rewrite Hds, <- app_assoc. reflexivity.
      * rewrite digits_value_snoc, Hval.
        rewrite (N.add_comm 48), N.add_sub.
        rewrite (N.div_mod n 10 ltac:(discriminate)) at 3.
        rewrite N2Z.inj_add, N2Z.inj_mul. apply f_equal2; [| reflexivity].
        apply Z.mul_comm.
Qed.

(** Reading the digits [dec_digits] prints gives the number back. *)
Lemma dec_digits_value n : JsonDecoder.digits_value (dec_digits n) = Z.of_N n.
Proof.
  unfold dec_digits.
  destruct (dec_digits_aux_value (N.size_nat n) n [] (size_nat_bound n))
    as [ds [Hds Hval]].
  rewrite Hds, app_nil_r. exact Hval.
Qed.

(** With at least one unit of fuel for each byte, the decoder's result
    does not depend on the fuel. *)
Lemma decode_from_fuel f1 : forall f2 pos bs,
  (List.length bs <= f1)%nat -> (List.length bs <= f2)%nat ->
  Utf8.decode_from f1 pos bs = Utf8.decode_from f2 pos bs.
Proof.
  induction f1 as [| f1 IH]; intros f2 pos bs H1 H2.
  - destruct bs; [destruct f2; reflexivity | simpl in H1; lia].
  - destruct bs as [| b rest]; [destruct f2; reflexivity |].
    destruct f2 as [| f2]; [simpl in H2; lia |].
    cbn [Utf8.decode_from].
    destruct (Utf8.decode_step (Byte.to_N b) rest) as [c more | | |];
      try reflexivity.
    assert (Hlen : (List.length (skipn more rest) <= List.length rest)%nat)
      by (rewrite length_skipn; lia).
    cbn [List.length] in H1, H2.
    rewrite (IH f2); [reflexivity | lia | lia].
Qed.

(** ** The request body is ASCII *)

Lemma is_ascii_app s t : is_ascii s -> is_ascii t -> is_ascii (s ++ t).
Proof. unfold is_ascii. intros. apply Forall_app. now split. Qed.

Lemma is_ascii_literal s :
  forallb (fun c => c <? 128) s = true -> is_ascii s.
Proof.
  intros H. apply Forall_forall. intros c Hc.
  rewrite forallb_forall in H. apply N.ltb_lt. now apply H.
Qed.

Ltac ascii_literal := apply is_ascii_literal; reflexivity.

Lemma hex_digit_ascii d : d < 16 -> hex_digit d < 128.
Proof.
  intros H. unfold hex_digit. destruct (d <? 10) eqn:E.
  - apply N.ltb_lt in E. lia.
  - lia.
Qed.

Lemma hex4_ascii n : is_ascii (hex4 n).
Proof.
  unfold hex4, is_ascii.
  repeat constructor; apply hex_digit_ascii; apply N.mod_lt; discriminate.
Qed.

Lemma escaped_hex4_ascii n :
  is_ascii (JsonEncoder.backslash :: lit "u" ++ hex4 n).
Proof.
  apply (is_ascii_app [JsonEncoder.backslash; 117]);
    [ascii_literal | apply hex4_ascii].
Qed.

Lemma escape_char_ascii c : is_ascii (JsonEncoder.escape_char c).
Proof.
  unfold JsonEncoder.escape_char.
  repeat match goal with
         | |- is_ascii (if ?b then _ else _) => destruct b eqn:?
         end;
    try ascii_literal.
  - match goal with
    | H : (_ <=? c) && (c <=? 126) = true |- _ =>
        apply andb_true_iff in H; destruct H as [_ H]; apply N.leb_le in H
    end.
    repeat constructor. lia.
  - apply escaped_hex4_ascii.
  - apply is_ascii_app; apply escaped_hex4_ascii.
Qed.

Lemma flat_map_escape_ascii s : is_ascii (flat_map JsonEncoder.escape_char s).
Proof.
  induction s as [| c s IH]; simpl.
  - constructor.
  - apply is_ascii_app; [apply escape_char_ascii | exact IH].
Qed.

Lemma encode_basestring_ascii_is_ascii s :
  is_ascii (JsonEncoder.encode_basestring_ascii s).
Proof.
  unfold JsonEncoder.encode_basestring_ascii.
  apply is_ascii_app; [ascii_literal |].
  apply is_ascii_app; [apply flat_map_escape_ascii | ascii_literal].
Qed.

(** What [json.dumps] writes for the request object. *)
Lemma request_object_dumps text model :
  json_dumps (request_object text model)
  = jlit "{'model': " ++ JsonEncoder.encode_basestring_ascii model
      ++ jlit ", 'input': " ++ JsonEncoder.encode_basestring_ascii text
      ++ lit "}".
Proof.
  unfold json_dumps, request_object.
  cbn [JsonEncoder.encode map JsonEncoder.join fst snd].
  change (JsonEncoder.encode_basestring_ascii (lit "model"))
    with (jlit "'model'").
  change (JsonEncoder.encode_basestring_ascii (lit "input"))
    with (jlit "'input'").
  change (jlit "{'model': ") with (lit "{" ++ jlit "'model'" ++ lit ": ").
  change (jlit ", 'input': ")
    with (JsonEncoder.item_separator ++ jlit "'input'" ++ lit ": ").
  change JsonEncoder.key_separator with (lit ": ").
  repeat rewrite <- app_assoc. reflexivity.
Qed.

Lemma request_object_ascii text model :
  is_ascii (json_dumps (request_object text model)).
Proof.
  rewrite request_object_dumps.
  apply is_ascii_app; [ascii_literal |].
  apply is_ascii_app; [apply encode_basestring_ascii_is_ascii |].
  apply is_ascii_app; [ascii_literal |].
  apply is_ascii_app; [apply encode_basestring_ascii_is_ascii | ascii_literal].
Qed.

(** Encoding ASCII text cannot fail, and gives one byte for each character. *)
Lemma encode_from_ascii s : forall pos,
  is_ascii s -> Utf8.encode_from pos s = Ok (ascii_bytes s).
Proof.
  induction s as [| c s IH]; intros pos H; simpl.
  - reflexivity.
  - inversion H as [| ? ? Hc Hs]; subst.
    assert (Hsur : Utf8.is_surrogate c = false).
    { unfold Utf8.is_surrogate. apply andb_false_iff. left.
      apply N.leb_gt. lia. }
    rewrite Hsur, (IH _ Hs).
    unfold Utf8.encode_char.
    apply N.ltb_lt in Hc. rewrite Hc. reflexivity.
Qed.

Lemma request_object_encode text model :
  Utf8.encode (json_dumps (request_object text model))
  = Ok (ascii_bytes (json_dumps (request_object text model))).
Proof. apply encode_from_ascii, request_object_ascii. Qed.

(** ** [embed], step by step *)

(** [embed] calls [urlopen] once, with [embed_request] and a timeout of
    60, and returns what it makes of the response. *)
Lemma embed_eq urlopen text model base_url w :
  embed urlopen text model base_url w
  = (match urlopen (embed_request text model base_url) 60%Z with
     | Ok response => response_embedding response
     | Raise e => Raise e
     end,
     sent w (embed_request text model base_url) 60%Z).
Proof.
  unfold embed, bind, lift, call_urlopen.
  fold (request_object text model).
  rewrite request_object_encode.
  fold (embed_request text model base_url).
  fold (sent w (embed_request text model base_url) 60%Z).
  unfold response_embedding.
  destruct (urlopen (embed_request text model base_url) 60%Z) as [resp | e];
    [| reflexivity].
  destruct (read resp) as [body | e]; [| reflexivity].
  destruct (Utf8.decode body) as [s | e]; [| reflexivity].
  destruct (json_loads s) as [result | e]; [| reflexivity].
  destruct (getitem result (Key (lit "embeddings"))) as [v | e]; reflexivity.
Qed.

(** ** [main], case by case *)

Lemma run_usage urlopen argv :
  (List.length argv < 2)%nat -> run urlopen argv = (Exit 1, usage_world).
Proof.
  intros H. unfold run, main, bind.
  assert (E : (Z.of_nat (List.length argv) <? 2)%Z = true)
    by (apply Z.ltb_lt; lia).
  rewrite E. reflexivity.
Qed.

Lemma argv_item_1 prog text rest :
  argv_item (prog :: text :: rest) 1 = Ok text.
Proof. reflexivity. Qed.

(** With a text argument the script ends as [embed] does. *)
Lemma run_text urlopen prog text rest :
  run urlopen (prog :: text :: rest)
  = match embed urlopen text default_model default_base_url initial_world with
    | (Ok embedding, w) => (Exit 0, success_world w embedding)
    | (Raise e, w) =>
        if is_Exception e then (Exit 1, error_world w e)
        else match e with
             | SystemExit code => (Exit code, w)
             | _ => (Traceback e, w)
             end
    end.
Proof.
  unfold run, main, bind.
  assert (E : (Z.of_nat (List.length (prog :: text :: rest)) <? 2)%Z = false).
  { apply Z.ltb_ge. cbn [List.length]. lia. }
  rewrite E.
  unfold ret, lift. rewrite argv_item_1.
  unfold try_except, bind.
  destruct (embed urlopen text default_model default_base_url initial_world)
    as [[embedding | e] w].
  - reflexivity.
  - destruct (is_Exception e) eqn:Hexc.
    + reflexivity.
    + destruct e as [c m | code]; reflexivity.
Qed.

(** ** The scanner never runs out of fuel *)
Module JsonDecoderFacts.

Import JsonDecoder.

Lemma skip_whitespace_length r : forall p,
  (List.length (fst (skip_whitespace r p)) <= List.length r)%nat.
Proof.
  induction r as [| c r IH]; intros p; simpl.
  - lia.
  - destruct (is_whitespace c); simpl.
    + specialize (IH (p + 1)). lia.
    + lia.
Qed.

(** A recursive call of [scanstring] on a shorter rest, settled by the
    induction hypothesis [IH]. *)
Ltac rec_call IH :=
  match goal with
  | |- shorter _ (scanstring ?r ?p ?b ?a) =>
      let H := fresh "H" in
      assert (H : shorter r (scanstring r p b a))
        by (apply IH; cbn [List.length] in *; lia);
      destruct (scanstring r p b a); cbn [shorter List.length] in *;
      [lia | exact I | exact H]
  end.

Ltac split_match :=
  match goal with
  | |- shorter _ (if ?b then _ else _) => destruct b
  | |- shorter _ (match ?x with _ => _ end) => destruct x
  end.

Lemma scanstring_shorter n : forall rest pos begin acc,
  (List.length rest <= n)%nat -> shorter rest (scanstring rest pos begin acc).
Proof.
  induction n as [| n IH]; intros rest pos begin acc Hn.
  - destruct rest; [exact I | simpl in Hn; lia].
  - destruct rest as [| c r]; [exact I |].
    cbn [scanstring].
    repeat first [ rec_call IH
                 | split_match
                 | exact I
                 | (cbn [shorter List.length]; lia) ].
Qed.

Lemma take_digits_length rest :
  (List.length (fst (take_digits rest)) + List.length (snd (take_digits rest))
   = List.length rest)%nat.
Proof.
  induction rest as [| c r IH]; simpl; [reflexivity |].
  destruct (is_digit c); simpl; [| reflexivity].
  destruct (take_digits r) as [ds r']. simpl in *. lia.
Qed.

Lemma integer_part_shorter rest ints r :
  integer_part rest = Some (ints, r) ->
  (List.length r < List.length rest)%nat.
Proof.
  unfold integer_part. destruct rest as [| c r0]; [discriminate |].
  destruct (c =? 48).
  - intros H. injection H as <- <-. simpl. lia.
  - destruct (is_digit c) eqn:Hd; [| discriminate].
    cbn [take_digits]. rewrite Hd.
    pose proof (take_digits_length r0) as Hlen.
    destruct (take_digits r0) as [ds r']. cbn [fst snd] in Hlen.
    intros H. injection H as <- <-. cbn [List.length]. lia.
Qed.

Lemma fraction_part_length rest :
  (List.length (snd (fraction_part rest)) <= List.length rest)%nat.
Proof.
  unfold fraction_part. destruct rest as [| c [| d r]]; simpl; try lia.
  destruct ((c =? 46) && is_digit d); simpl; [| lia].
  pose proof (take_digits_length (d :: r)) as H. simpl in H. lia.
Qed.

Lemma exponent_part_length rest :
  (List.length (snd (exponent_part rest)) <= List.length rest)%nat.
Proof.
  unfold exponent_part. destruct rest as [| c r]; simpl; [lia |].
  destruct ((c =? 101) || (c =? 69)); simpl; [| lia].
  destruct r as [| s r'].
  - simpl. lia.
  - destruct (s =? 45); [| destruct (s =? 43)].
    + pose proof (take_digits_length r') as Hlen.
      destruct (take_digits r') as [[| d ds] r2]; simpl in *; lia.
    + pose proof (take_digits_length r') as Hlen.
      destruct (take_digits r') as [[| d ds] r2]; simpl in *; lia.
    + pose proof (take_digits_length (s :: r')) as Hlen.
      destruct (take_digits (s :: r')) as [[| d ds] r2]; simpl in *; lia.
Qed.

Lemma match_number_shorter rest pos v r p :
  match_number rest pos = Some (v, r, p) ->
  (List.length r < List.length rest)%nat.
Proof.
  unfold match_number.
  set (start := match rest with
                | c :: r0 => if c =? 45 then (true, r0, pos + 1)
                             else (false, rest, pos)
                | [] => (false, rest, pos)
                end).
  assert (Hstart : (List.length (snd (fst start)) <= List.length rest)%nat).
  { subst start. destruct rest as [| c r0]; simpl; [lia |].
    destruct (c =? 45); simpl; lia. }
  destruct start as [[neg r0] p0]. simpl in Hstart.
  destruct (integer_part r0) as [[ints r1] |] eqn:Hint; [| discriminate].
  apply integer_part_shorter in Hint.
  pose proof (fraction_part_length r1) as Hfrac.
  destruct (fraction_part r1) as [fracs r2]. simpl in Hfrac.
  pose proof (exponent_part_length r2) as Hexp.
  destruct (exponent_part r2) as [ex r3]. simpl in Hexp.
  destruct fracs; destruct ex as [[e k] |]; intros H; injection H as _ <- _; lia.
Qed.

Lemma strip_prefix_length word : forall rest r,
  strip_prefix word rest = Some r ->
  (List.length r + List.length word = List.length rest)%nat.
Proof.
  induction word as [| w word IH]; intros rest r; simpl.
  - intros H. injection H as <-. lia.
  - destruct rest as [| c rest']; [discriminate |].
    destruct (w =? c); [| discriminate].
    intros H. apply IH in H. simpl. lia.
Qed.

Lemma match_constant_shorter rest pos v r p :
  match_constant constants rest pos = Some (v, r, p) ->
  (List.length r < List.length rest)%nat.
Proof.
  unfold constants. cbn [match_constant].
  repeat match goal with
         | |- context [strip_prefix ?w rest] =>
             let E := fresh "E" in
             destruct (strip_prefix w rest) eqn:E;
             [ apply strip_prefix_length in E; cbn [List.length lit map list_ascii_of_string] in E;
               intros H; injection H as _ <- _; lia | ]
         end.
  discriminate.
Qed.

Lemma scan_fuel fuel :
  (forall rest pos, (2 * List.length rest + 1 <= fuel)%nat ->
                    shorter rest (scan_once fuel rest pos))
  /\ (forall rest pos acc, (2 * List.length rest + 2 <= fuel)%nat ->
                           shorter rest (array_items fuel rest pos acc))
  /\ (forall rest pos acc, (2 * List.length rest + 2 <= fuel)%nat ->
                           shorter rest (object_items fuel rest pos acc)).
Proof.
  induction fuel as [| f [IHscan [IHarr IHobj]]].
  - repeat split; intros; lia.
  - repeat split.
    + intros rest pos Hf. cbn [scan_once].
      destruct rest as [| c r]; [exact I |].
      cbn [List.length] in Hf.
      destruct (c =? dquote).
      { pose proof (scanstring_shorter (List.length r) r (pos + 1) pos []
                      (le_n _)) as H.
        destruct (scanstring r (pos + 1) pos []); cbn [shorter List.length] in *;
          [lia | exact I | exact H]. }
      destruct (c =? 123).
      { pose proof (skip_whitespace_length r (pos + 1)) as Hws.
        destruct (skip_whitespace r (pos + 1)) as [r1 p1]. cbn [fst] in Hws.
        assert (H : shorter r1 (object_items f r1 p1 [])) by (apply IHobj; lia).
        destruct r1 as [| c1 r2].
        - destruct (object_items f [] p1 []); cbn [shorter List.length] in *;
            [lia | exact I | exact H].
        - destruct (c1 =? 125); [cbn [shorter List.length] in *; lia |].
          destruct (object_items f (c1 :: r2) p1 []);
            cbn [shorter List.length] in *; [lia | exact I | exact H]. }
      destruct (c =? 91).
      { pose proof (skip_whitespace_length r (pos + 1)) as Hws.
        destruct (skip_whitespace r (pos + 1)) as [r1 p1]. cbn [fst] in Hws.
        assert (H : shorter r1 (array_items f r1 p1 [])) by (apply IHarr; lia).
        destruct r1 as [| c1 r2].
        - destruct (array_items f [] p1 []); cbn [shorter List.length] in *;
            [lia | exact I | exact H].
        - destruct (c1 =? 93); [cbn [shorter List.length] in *; lia |].
          destruct (array_items f (c1 :: r2) p1 []);
            cbn [shorter List.length] in *; [lia | exact I | exact H]. }
      destruct (match_constant constants (c :: r) pos) as [[[v r'] p'] |] eqn:Hc.
      { apply match_constant_shorter in Hc. exact Hc. }
      destruct (match_number (c :: r) pos) as [[[v r'] p'] |] eqn:Hn.
      { apply match_number_shorter in Hn. exact Hn. }
      exact I.
    + intros rest pos acc Hf. cbn [array_items].
      assert (H : shorter rest (scan_once f rest pos)) by (apply IHscan; lia).
      destruct (scan_once f rest pos) as [v r1 p1 | |]; [| exact I | exact H].
      cbn [shorter] in H.
      pose proof (skip_whitespace_length r1 p1) as Hws.
      destruct (skip_whitespace r1 p1) as [r2 p2]. cbn [fst] in Hws.
      destruct r2 as [| c r3]; [exact I |]. cbn [List.length] in Hws.
      destruct (c =? 93); [cbn [shorter]; lia |].
      destruct (c =? 44); [| exact I].
      pose proof (skip_whitespace_length r3 (p2 + 1)) as Hws'.
      destruct (skip_whitespace r3 (p2 + 1)) as [r4 p4]. cbn [fst] in Hws'.
      assert (H' : shorter r4 (array_items f r4 p4 (v :: acc)))
        by (apply IHarr; lia).
      destruct (array_items f r4 p4 (v :: acc)); cbn [shorter] in *;
        [lia | exact I | exact H'].
    + intros rest pos acc Hf. cbn [object_items].
      destruct rest as [| c r]; [exact I |]. cbn [List.length] in Hf.
      destruct (c =? dquote); [| exact I]. cbn [negb].
      pose proof (scanstring_shorter (List.length r) r (pos + 1) pos []
                    (le_n _)) as Hs.
      destruct (scanstring r (pos + 1) pos []) as [key r1 p1 | |];
        [| exact I | exact Hs].
      cbn [shorter] in Hs.
      pose proof (skip_whitespace_length r1 p1) as Hws.
      destruct (skip_whitespace r1 p1) as [r2 p2]. cbn [fst] in Hws.
      destruct r2 as [| c2 r3]; [exact I |]. cbn [List.length] in Hws.
      destruct (c2 =? 58); [| exact I]. cbn [negb].
      pose proof (skip_whitespace_length r3 (p2 + 1)) as Hws'.
      destruct (skip_whitespace r3 (p2 + 1)) as [r4 p4]. cbn [fst] in Hws'.
      assert (H : shorter r4 (scan_once f r4 p4)) by (apply IHscan; lia).
      destruct (scan_once f r4 p4) as [v r5 p5 | |]; [| exact I | exact H].
      cbn [shorter] in H.
      pose proof (skip_whitespace_length r5 p5) as Hws5.
      destruct (skip_whitespace r5 p5) as [r6 p6]. cbn [fst] in Hws5.
      destruct r6 as [| c3 r7]; [exact I |]. cbn [List.length] in Hws5.
      destruct (c3 =? 125); [cbn [shorter List.length]; lia |].
      destruct (c3 =? 44); [| exact I].
      pose proof (skip_whitespace_length r7 (p6 + 1)) as Hws7.
      destruct (skip_whitespace r7 (p6 + 1)) as [r8 p8]. cbn [fst] in Hws7.
      assert (H' : shorter r8 (object_items f r8 p8 (dict_set acc key v)))
        by (apply IHobj; lia).
      destruct (object_items f r8 p8 (dict_set acc key v));
        cbn [shorter List.length] in *; [lia | exact I | exact H'].
Qed.

(** Whatever the document, [json.loads] returns a value or raises a
    [JSONDecodeError]: the scanner's fuel is never used up. *)
Lemma loads_raises_JSONDecodeError s e :
  json_loads s = Raise e -> exists m, e = Raised JSONDecodeError m.
Proof.
  unfold json_loads, loads, decode_error.
  destruct s as [| c s']; [intros H; injection H as <-; eexists; reflexivity |].
  destruct (c =? byte_order_mark).
  { intros H. injection H as <-. eexists. reflexivity. }
  pose proof (skip_whitespace_length (c :: s') 0) as Hws.
  destruct (skip_whitespace (c :: s') 0) as [r0 p0]. cbn [fst] in Hws.
  assert (H : shorter r0 (scan_once (fuel_for (c :: s')) r0 p0)).
  { apply scan_fuel. unfold fuel_for. lia. }
  destruct (scan_once (fuel_for (c :: s')) r0 p0) as [v r1 p1 | m p |].
  - destruct (skip_whitespace r1 p1) as [r2 p2].
    destruct r2; [discriminate |].
    destruct (line_column (c :: s') (N.to_nat p2) 1 1).
    intros H'. injection H' as <-. eexists. reflexivity.
  - destruct (line_column (c :: s') (N.to_nat p) 1 1).
    intros H'. injection H' as <-. eexists. reflexivity.
  - destruct H.
Qed.

End JsonDecoderFacts.

(** ** What [embed] can raise *)

Lemma decode_raises_UnicodeDecodeError bs e :
  Utf8.decode bs = Raise e -> exists m, e = Raised UnicodeDecodeError m.
Proof.
  unfold Utf8.decode. generalize (List.length bs) as fuel, 0 as pos.
  intros fuel. revert bs.
  induction fuel as [| f IH]; intros bs pos.
  - destruct bs; discriminate.
  - destruct bs as [| b rest]; [discriminate |].
    cbn [Utf8.decode_from].
    destruct (Utf8.decode_step (Byte.to_N b) rest) as [c more | | | n].
    + destruct (Utf8.decode_from f (pos + 1 + N.of_nat more) (skipn more rest))
        eqn:Hrec; [discriminate |].
      intros H. injection H as <-. eapply IH. exact Hrec.
    + intros H. injection H as <-. eexists. reflexivity.
    + intros H. injection H as <-. eexists. reflexivity.
    + intros H. injection H as <-. eexists. reflexivity.
Qed.

Lemma getitem_raises o k e :
  getitem o k = Raise e ->
  exists c m, e = Raised c m /\ In c [KeyError; IndexError; TypeError].
Proof.
  unfold getitem.
  destruct o as [| b | z | x | s | l | d]; destruct k as [key | i];
    repeat match goal with
           | |- context [match ?x with _ => _ end] => destruct x
           end;
    intros H; try discriminate H; injection H as <-;
    eexists; eexists; (split; [reflexivity | simpl; tauto]).
Qed.

Lemma response_embedding_raises response body e :
  read response = Ok body ->
  response_embedding response = Raise e ->
  exists c m, e = Raised c m /\ In c response_failure_kinds.
Proof.
  intros Hread. unfold response_embedding. rewrite Hread.
  destruct (Utf8.decode body) as [s | e1] eqn:Hdecode.
  2:{ intros H. injection H as <-.
      apply decode_raises_UnicodeDecodeError in Hdecode as [m ->].
      exists UnicodeDecodeError, m. simpl. tauto. }
  destruct (json_loads s) as [result | e1] eqn:Hloads.
  2:{ intros H. injection H as <-.
      apply JsonDecoderFacts.loads_raises_JSONDecodeError in Hloads as [m ->].
      exists JSONDecodeError, m. simpl. tauto. }
  destruct (getitem result (Key (lit "embeddings"))) as [v | e1] eqn:Hget.
  2:{ intros H. injection H as <-.
      apply getitem_raises in Hget as [c [m [-> Hc]]].
      exists c, m. simpl in *. tauto. }
  intros Hget0.
  apply getitem_raises in Hget0 as [c [m [-> Hc]]].
  exists c, m. simpl in *. tauto.
Qed.

Lemma embed_raises_exceptions_only urlopen text model base_url w e w' :
  raises_exceptions_only urlopen ->
  embed urlopen text model base_url w = (Raise e, w') ->
  is_Exception e = true.
Proof.
  intros [Hopen Hread]. rewrite embed_eq. intros H. injection H as H _.
  destruct (urlopen (embed_request text model base_url) 60%Z)
    as [response | e1] eqn:Hurl.
  - destruct (read response) as [body | e1] eqn:Hr.
    + apply (response_embedding_raises response body e Hr) in H
        as [c [m [-> Hc]]].
      simpl in Hc.
      repeat (destruct Hc as [<- | Hc]; [reflexivity |]). destruct Hc.
    + unfold response_embedding in H. rewrite Hr in H. injection H as <-.
      eapply Hread; eassumption.
  - injection H as <-. eapply Hopen; eassumption.
Qed.

(** Against such a network the script never ends on a traceback: its exit
    status is 0 or 1. *)
Lemma run_exits_0_or_1 urlopen argv :
  raises_exceptions_only urlopen ->
  fst (run urlopen argv) = Exit 0 \/ fst (run urlopen argv) = Exit 1.
Proof.
  intros Hnet.
  destruct argv as [| prog [| text rest]].
  - right. rewrite run_usage; [reflexivity | simpl; lia].
  - right. rewrite run_usage; [reflexivity | simpl; lia].
  - rewrite run_text.
    destruct (embed urlopen text default_model default_base_url initial_world)
      as [[v | e] w] eqn:Hembed.
    + left. reflexivity.
    + right.
      rewrite (embed_raises_exceptions_only _ _ _ _ _ _ _ Hnet Hembed).
      reflexivity.
Qed.

(** ** The claims *)

(** C1.  Against a service that answers the request for the text "hello"
    with the body [{"embeddings": [[0.1, 0.2, 0.3]]}], the script run with
    the argument "hello" prints the line [[0.1, 0.2, 0.3]] on standard
    output, nothing on standard error, and exits with status 0. *)
Theorem cli_prints_first_embedding :
  forall (urlopen : Network) (prog : pystr) (response : Response),
    urlopen (embed_request (lit "hello") default_model default_base_url) 60%Z
      = Ok response ->
    read response = Ok hello_body ->
    run urlopen [prog; lit "hello"]
    = (Exit 0,
       {| requests :=
            [(embed_request (lit "hello") default_model default_base_url, 60%Z)];
          stdout := lit "[0.1, 0.2, 0.3]" ++ newline;
          stderr := [] |}).
Proof.
  intros urlopen prog response Hopen Hread.
  rewrite run_text, embed_eq, Hopen.
  unfold response_embedding. rewrite Hread.
  vm_compute. reflexivity.
Qed.

Lemma cli_prints_first_embedding_witness :
  run (responding hello_body) [lit "ollama-embed.py"; lit "hello"]
  = (Exit 0,
     {| requests :=
          [(embed_request (lit "hello") default_model default_base_url, 60%Z)];
        stdout := lit "[0.1, 0.2, 0.3]" ++ newline;
        stderr := [] |}).
Proof.
  apply (cli_prints_first_embedding (responding hello_body)
           (lit "ollama-embed.py") {| read := Ok hello_body |});
    reflexivity.
Defined.


(** Every failure kind the specification lists is caught by
    [except Exception]. *)
Lemma listed_failure_kinds_caught c message :
  In c listed_failure_kinds -> is_Exception (Raised c message) = true.
Proof.
  unfold listed_failure_kinds. simpl.
  intros H. repeat (destruct H as [<- | H]; [reflexivity |]). destruct H.
Qed.

(** C3.  Whenever [embed] raises an exception that [except Exception]
    catches, which covers network errors, timeouts, HTTP error statuses, JSON
    decode errors and responses of the wrong shape, the script prints
    "Error: " followed by the exception's message on standard error, writes
    nothing on standard output, exits with status 1 instead of ending on a
    traceback, and has called the service once only. *)
Theorem cli_reports_every_failure :
  forall (urlopen : Network) (prog text : pystr) (rest : list pystr)
         (e : exn) (w : World),
    embed urlopen text default_model default_base_url initial_world
      = (Raise e, w) ->
    is_Exception e = true ->
    run urlopen (prog :: text :: rest)
    = (Exit 1,
       {| requests := [(embed_request text default_model default_base_url, 60%Z)];
          stdout := [];
          stderr := lit "Error: " ++ exn_str e ++ newline |}).
Proof.
  intros urlopen prog text rest e w Hembed Hexc.
  rewrite run_text, Hembed, Hexc.
  rewrite embed_eq in Hembed. injection Hembed as _ Hw. subst w.
  unfold error_world, sent. cbn [requests stdout stderr initial_world app].
  rewrite <- app_assoc. reflexivity.
Qed.

Lemma cli_reports_every_failure_witness :
  run (failing (Raised HTTPError (lit "HTTP Error 500: Internal Server Error")))
      [lit "ollama-embed.py"; lit "hello"]
  = (Exit 1,
     {| requests :=
          [(embed_request (lit "hello") default_model default_base_url, 60%Z)];
        stdout := [];
        stderr := lit "Error: HTTP Error 500: Internal Server Error"
                    ++ newline |}).
Proof.
  apply (cli_reports_every_failure
           (failing (Raised HTTPError (lit "HTTP Error 500: Internal Server Error")))
           (lit "ollama-embed.py") (lit "hello") []
           (Raised HTTPError (lit "HTTP Error 500: Internal Server Error"))
           (sent initial_world
              (embed_request (lit "hello") default_model default_base_url) 60%Z)).
  - vm_compute. reflexivity.
  - reflexivity.
Defined.

(** C4.  Run without a text argument, the script prints its usage line on
    standard error and exits with status 1; it has called the service not
    once and written nothing on standard output. *)
Theorem cli_usage_without_argument :
  forall (urlopen : Network) (argv : list pystr),
    (List.length argv < 2)%nat ->
    run urlopen argv
    = (Exit 1,
       {| requests := [];
          stdout := [];
          stderr := lit "Usage: ollama-embed.py <text>" ++ newline |}).
Proof. intros urlopen argv H. now apply run_usage. Qed.

Lemma cli_usage_without_argument_witness :
  run (responding hello_body) [lit "ollama-embed.py"]
  = (Exit 1,
     {| requests := [];
        stdout := [];
        stderr := lit "Usage: ollama-embed.py <text>" ++ newline |}).
Proof.
  apply (cli_usage_without_argument (responding hello_body)
           [lit "ollama-embed.py"]).
  simpl. lia.
Defined.

(** C5.  When the service's response parses as an object whose
    [embeddings] member is a non-empty array, [embed] returns the first
    element of that array, whatever the other elements are. *)
Theorem embed_returns_first_embedding :
  forall (urlopen : Network) (text model base_url : pystr) (w : World)
         (response : Response) (body : pybytes) (s : pystr)
         (d : list (pystr * pyval)) (first : pyval) (others : list pyval),
    urlopen (embed_request text model base_url) 60%Z = Ok response ->
    read response = Ok body ->
    Utf8.decode body = Ok s ->
    json_loads s = Ok (VDict d) ->
    dict_get d (lit "embeddings") = Some (VList (first :: others)) ->
    fst (embed urlopen text model base_url w) = Ok first.
Proof.
  intros urlopen text model base_url w response body s d first others
         Hopen Hread Hdecode Hloads Hget.
  rewrite embed_eq, Hopen. cbn [fst].
  unfold response_embedding.
  rewrite Hread, Hdecode, Hloads.
  cbn [getitem]. rewrite Hget. reflexivity.
Qed.

Lemma embed_returns_first_embedding_witness :
  fst (embed (responding two_embeddings_body) (lit "hello") default_model
         default_base_url initial_world)
  = Ok (VList [VFloat (PyFloat.of_decimal false 15 (-1));
               VFloat (PyFloat.of_decimal false 25 (-1))]).
Proof.
  apply (embed_returns_first_embedding
           (responding two_embeddings_body) (lit "hello") default_model
           default_base_url initial_world
           {| read := Ok two_embeddings_body |} two_embeddings_body
           (jlit "{'embeddings': [[1.5, 2.5], [3.5]]}")
           [(lit "embeddings",
             VList [VList [VFloat (PyFloat.of_decimal false 15 (-1));
                           VFloat (PyFloat.of_decimal false 25 (-1))];
                    VList [VFloat (PyFloat.of_decimal false 35 (-1))]])]
           (VList [VFloat (PyFloat.of_decimal false 15 (-1));
                   VFloat (PyFloat.of_decimal false 25 (-1))])
           [VList [VFloat (PyFloat.of_decimal false 35 (-1))]]);
    vm_compute; reflexivity.
Defined.


(** C7.  When the response parses as an object whose [embeddings] member
    is the empty array, [embed] raises the [IndexError] of subscripting an
    empty list, the very exception [[][0]] raises, and lets it out to its
    caller. *)
Theorem embed_empty_embeddings_raises_index_error :
  forall (urlopen : Network) (text model base_url : pystr) (w : World)
         (response : Response) (body : pybytes) (s : pystr)
         (d : list (pystr * pyval)),
    urlopen (embed_request text model base_url) 60%Z = Ok response ->
    read response = Ok body ->
    Utf8.decode body = Ok s ->
    json_loads s = Ok (VDict d) ->
    dict_get d (lit "embeddings") = Some (VList []) ->
    fst (embed urlopen text model base_url w)
      = Raise (Raised IndexError (lit "list index out of range"))
    /\ fst (embed urlopen text model base_url w) = getitem (VList []) (Index 0).
Proof.
  intros urlopen text model base_url w response body s d
         Hopen Hread Hdecode Hloads Hget.
  rewrite embed_eq, Hopen. cbn [fst].
  unfold response_embedding.
  rewrite Hread, Hdecode, Hloads.
  cbn [getitem]. rewrite Hget. split; reflexivity.
Qed.

Lemma embed_empty_embeddings_raises_index_error_witness :
  fst (embed (responding no_embeddings_body) (lit "hello") default_model
         default_base_url initial_world)
    = Raise (Raised IndexError (lit "list index out of range"))
  /\ fst (embed (responding no_embeddings_body) (lit "hello") default_model
            default_base_url initial_world)
     = getitem (VList []) (Index 0).
Proof.
  apply (embed_empty_embeddings_raises_index_error
           (responding no_embeddings_body) (lit "hello") default_model
           default_base_url initial_world
           {| read := Ok no_embeddings_body |} no_embeddings_body
           (jlit "{'embeddings': []}")
           [(lit "embeddings", VList [])]);
    vm_compute; reflexivity.
Defined.

(** C8.  The script takes its text from the first argument only: run with
    further arguments it sends the same request, writes the same output
    and ends the same way as run with the first argument alone. *)
Theorem cli_ignores_extra_arguments :
  forall (urlopen : Network) (prog text : pystr) (rest : list pystr),
    run urlopen (prog :: text :: rest) = run urlopen [prog; text]
    /\ requests (snd (run urlopen (prog :: text :: rest)))
       = [(embed_request text default_model default_base_url, 60%Z)].
Proof.
  intros urlopen prog text rest. split.
  - rewrite !run_text. reflexivity.
  - rewrite run_text, embed_eq.
    destruct (urlopen (embed_request text default_model default_base_url) 60%Z)
      as [response | e].
    + destruct (response_embedding response) as [v | e]; [reflexivity |].
      destruct (is_Exception e); [reflexivity |].
      destruct e; reflexivity.
    + destruct (is_Exception e); [reflexivity |].
      destruct e; reflexivity.
Qed.

(** C9.  The script writes on standard output on the success path only:
    standard output stays empty when the text argument is missing, when
    [embed] raises any exception, and whenever the exit status is 1; and
    when something was written the exit status is 0. *)
Theorem failure_paths_write_no_stdout :
  forall (urlopen : Network) (argv : list pystr),
    ((List.length argv < 2)%nat -> stdout (snd (run urlopen argv)) = [])
    /\ (forall (text : pystr) (e : exn) (w : World),
           nth_error argv 1 = Some text ->
           embed urlopen text default_model default_base_url initial_world
             = (Raise e, w) ->
           stdout (snd (run urlopen argv)) = [])
    /\ (fst (run urlopen argv) = Exit 1 -> stdout (snd (run urlopen argv)) = [])
    /\ (stdout (snd (run urlopen argv)) <> [] -> fst (run urlopen argv) = Exit 0).
Proof.
  intros urlopen argv.
  assert (Hshort : (List.length argv < 2)%nat ->
                   stdout (snd (run urlopen argv)) = []).
  { intros H. rewrite (run_usage urlopen argv H). reflexivity. }
  assert (Hraise : forall prog text rest e w,
             embed urlopen text default_model default_base_url initial_world
               = (Raise e, w) ->
             stdout (snd (run urlopen (prog :: text :: rest))) = []).
  { intros prog text rest e w Hembed.
    rewrite run_text, Hembed.
    rewrite embed_eq in Hembed. injection Hembed as _ Hw. subst w.
    destruct (is_Exception e); [reflexivity |].
    destruct e; reflexivity. }
  assert (Hcases : stdout (snd (run urlopen argv)) = []
                   \/ fst (run urlopen argv) = Exit 0).
  { destruct argv as [| prog [| text rest]].
    - left. apply Hshort. simpl. lia.
    - left. apply Hshort. simpl. lia.
    - destruct (embed urlopen text default_model default_base_url initial_world)
        as [[v | e] w] eqn:Hembed.
      + right. rewrite run_text, Hembed. reflexivity.
      + left. eapply Hraise. exact Hembed. }
  split; [exact Hshort |].
  split.
  - intros text e w Hnth Hembed.
    destruct argv as [| prog [| text' rest]]; try discriminate Hnth.
    injection Hnth as ->. eapply Hraise. exact Hembed.
  - split.
    + intros Hexit. destruct Hcases as [H | H]; [exact H |].
      rewrite H in Hexit. discriminate Hexit.
    + intros Hout. destruct Hcases as [H | H]; [contradiction | exact H].
Qed.

Lemma failure_paths_write_no_stdout_witness :
  stdout (snd (run (responding no_embeddings_body) [lit "ollama-embed.py"])) = []
  /\ stdout (snd (run (responding no_embeddings_body)
                    [lit "ollama-embed.py"; lit "hello"])) = []
  /\ fst (run (responding hello_body) [lit "ollama-embed.py"; lit "hello"])
     = Exit 0.
Proof.
  split; [| split].
  - apply (proj1 (failure_paths_write_no_stdout
                    (responding no_embeddings_body) [lit "ollama-embed.py"])).
    simpl. lia.
  - apply (proj1 (proj2 (failure_paths_write_no_stdout
                           (responding no_embeddings_body)
                           [lit "ollama-embed.py"; lit "hello"]))
             (lit "hello")
             (Raised IndexError (lit "list index out of range"))
             (sent initial_world
                (embed_request (lit "hello") default_model default_base_url)
                60%Z)).
    + reflexivity.
    + vm_compute. reflexivity.
  - apply (proj2 (proj2 (proj2 (failure_paths_write_no_stdout
                                  (responding hello_body)
                                  [lit "ollama-embed.py"; lit "hello"])))).
    vm_compute. discriminate.
Defined.

(** C10.  Nothing checks what [embeddings[0]] is: there is a response whose
    [embeddings[0]] is a string and no array of floats, for which the script
    prints that string as JSON on standard output and exits with status 0;
    and for the response whose [embeddings[0]] is the empty array it prints
    the empty array and exits with status 0. *)
Theorem embedding_shape_not_validated :
  forall (prog text : pystr),
    (exists (body : pybytes) (v : pyval),
        response_embedding {| read := Ok body |} = Ok v
        /\ is_float_list v = false
        /\ run (responding body) [prog; text]
           = (Exit 0,
              {| requests :=
                   [(embed_request text default_model default_base_url, 60%Z)];
                 stdout := json_dumps v ++ newline;
                 stderr := [] |})
        /\ json_dumps v = jlit "'not a vector'")
    /\ run (responding empty_embedding_body) [prog; text]
       = (Exit 0,
          {| requests :=
               [(embed_request text default_model default_base_url, 60%Z)];
             stdout := lit "[]" ++ newline;
             stderr := [] |}).
Proof.
  intros prog text. split.
  - exists string_embedding_body, (VStr (lit "not a vector")).
    assert (H : response_embedding {| read := Ok string_embedding_body |}
                = Ok (VStr (lit "not a vector")))
      by (vm_compute; reflexivity).
    split; [exact H |].
    split; [reflexivity |].
    split; [| vm_compute; reflexivity].
    rewrite run_text, embed_eq.
    unfold responding at 1. rewrite H. reflexivity.
  - assert (H : response_embedding {| read := Ok empty_embedding_body |}
                = Ok (VList []))
      by (vm_compute; reflexivity).
    rewrite run_text, embed_eq.
    unfold responding at 1. rewrite H. reflexivity.
Qed.

(** * Further properties *)

(** ** The request body *)

Lemma to_N_byte_of c : c < 256 -> Byte.to_N (Utf8.byte_of c) = c.
Proof.
  intros H. unfold Utf8.byte_of.
  destruct (Byte.of_N c) as [b |] eqn:E.
  - now apply Byte.to_of_N.
  - apply Byte.of_N_None_iff in E. lia.
Qed.

Lemma ascii_bytes_ascii_only s : is_ascii s -> ascii_only (ascii_bytes s).
Proof.
  unfold is_ascii, ascii_only, ascii_bytes. intros H.
  apply Forall_map. eapply Forall_impl; [| exact H].
  cbv beta. intros c Hc. rewrite to_N_byte_of; lia.
Qed.

Lemma decode_from_ascii_bytes s : forall fuel pos,
  is_ascii s -> (List.length s <= fuel)%nat ->
  Utf8.decode_from fuel pos (ascii_bytes s) = Ok s.
Proof.
  induction s as [| c s IH]; intros fuel pos Hs Hfuel.
  - destruct fuel; reflexivity.
  - destruct fuel as [| f]; [simpl in Hfuel; lia |].
    inversion Hs as [| ? ? Hc Hs']; subst.
    cbn [ascii_bytes map Utf8.decode_from].
    rewrite (to_N_byte_of c) by lia.
    unfold Utf8.decode_step.
    apply N.ltb_lt in Hc. rewrite Hc.
    cbn [skipn]. fold (ascii_bytes s).
    rewrite IH; [reflexivity | exact Hs' | simpl in Hfuel; lia].
Qed.

Lemma decode_ascii_bytes s : is_ascii s -> Utf8.decode (ascii_bytes s) = Ok s.
Proof.
  intros H. unfold Utf8.decode. apply decode_from_ascii_bytes; [exact H |].
  unfold ascii_bytes. rewrite length_map. lia.
Qed.

(** X1.  Whatever the text and the model, every byte of the request body is
    an ASCII byte, and decoding the body as UTF-8 gives back the text
    [json.dumps] wrote. *)
Theorem request_body_is_ascii :
  forall (urlopen : Network) (text model base_url : pystr) (w : World),
    exists req : Request,
      requests (snd (embed urlopen text model base_url w))
        = requests w ++ [(req, 60%Z)]
      /\ ascii_only (data req)
      /\ Utf8.decode (data req)
         = Ok (json_dumps (VDict [(lit "model", VStr model);
                                  (lit "input", VStr text)])).
Proof.
  intros urlopen text model base_url w.
  exists (embed_request text model base_url).
  rewrite embed_eq. cbn [snd sent requests embed_request data].
  split; [reflexivity |]. split.
  - apply ascii_bytes_ascii_only, request_object_ascii.
  - apply (decode_ascii_bytes _ (request_object_ascii text model)).
Qed.

(** X2.  [embed] writes nothing: whatever the network answers and whether it
    returns or raises, standard output and standard error are as it found
    them, and the request it has sent does not depend on the answer. *)
Theorem embed_is_silent :
  forall (urlopen urlopen' : Network) (text model base_url : pystr) (w : World),
    stdout (snd (embed urlopen text model base_url w)) = stdout w
    /\ stderr (snd (embed urlopen text model base_url w)) = stderr w
    /\ snd (embed urlopen text model base_url w)
       = snd (embed urlopen' text model base_url w).
Proof.
  intros. rewrite !embed_eq. repeat split; reflexivity.
Qed.

(** X3.  A response object without the key [embeddings] makes [embed] raise
    the [KeyError] of the missing key, and the script reports it as
    [Error: 'embeddings'] with exit status 1. *)
Theorem missing_embeddings_key_is_KeyError :
  forall (urlopen : Network) (prog text : pystr) (rest : list pystr)
         (response : Response) (body : pybytes) (s : pystr)
         (d : list (pystr * pyval)),
    urlopen (embed_request text default_model default_base_url) 60%Z
      = Ok response ->
    read response = Ok body ->
    Utf8.decode body = Ok s ->
    json_loads s = Ok (VDict d) ->
    dict_get d (lit "embeddings") = None ->
    fst (embed urlopen text default_model default_base_url initial_world)
      = Raise (Raised KeyError (lit "'embeddings'"))
    /\ run urlopen (prog :: text :: rest)
       = (Exit 1,
          {| requests :=
               [(embed_request text default_model default_base_url, 60%Z)];
             stdout := [];
             stderr := lit "Error: 'embeddings'" ++ newline |}).
Proof.
  intros urlopen prog text rest response body s d
         Hopen Hread Hdecode Hloads Hget.
  assert (H : response_embedding response
              = Raise (Raised KeyError (lit "'embeddings'"))).
  { unfold response_embedding. rewrite Hread, Hdecode, Hloads.
    cbn [getitem]. rewrite Hget. reflexivity. }
  split.
  - rewrite embed_eq, Hopen. exact H.
  - rewrite run_text, embed_eq, Hopen, H. reflexivity.
Qed.

Lemma missing_embeddings_key_is_KeyError_witness :
  fst (embed (responding no_key_body) (lit "hello") default_model
         default_base_url initial_world)
    = Raise (Raised KeyError (lit "'embeddings'"))
  /\ run (responding no_key_body) [lit "ollama-embed.py"; lit "hello"]
     = (Exit 1,
        {| requests :=
             [(embed_request (lit "hello") default_model default_base_url,
               60%Z)];
           stdout := [];
           stderr := lit "Error: 'embeddings'" ++ newline |}).
Proof.
  apply (missing_embeddings_key_is_KeyError
           (responding no_key_body) (lit "ollama-embed.py") (lit "hello") []
           {| read := Ok no_key_body |} no_key_body
           (jlit "{'embedding': [[0.5]], 'model': 'm'}")
           [(lit "embedding", VList [VList [VFloat (PyFloat.of_decimal false 5 (-1))]]);
            (lit "model", VStr (lit "m"))]);
    vm_compute; reflexivity.
Defined.

(** ** The shape of the response *)

Lemma parses_as_embedding urlopen text model base_url v w :
  parses_as urlopen text model base_url v ->
  fst (embed urlopen text model base_url w)
  = match getitem v (Key (lit "embeddings")) with
    | Ok embeddings => getitem embeddings (Index 0)
    | Raise e => Raise e
    end.
Proof.
  intros [response [body [s [Hopen [Hread [Hdecode Hloads]]]]]].
  rewrite embed_eq, Hopen. cbn [fst]. unfold response_embedding.
  rewrite Hread, Hdecode, Hloads. reflexivity.
Qed.

(** X4.  [embed] does not check that [embeddings] is an array.  Of a
    non-empty string it returns the first character, as a string; an empty
    string raises [IndexError], an object [KeyError: 0], and [null], a
    boolean or a number [TypeError]. *)
Theorem embeddings_need_not_be_an_array :
  forall (urlopen : Network) (text model base_url : pystr) (w : World)
         (d : list (pystr * pyval)) (v : pyval),
    parses_as urlopen text model base_url (VDict d) ->
    dict_get d (lit "embeddings") = Some v ->
    fst (embed urlopen text model base_url w) = first_of_non_array v.
Proof.
  intros urlopen text model base_url w d v Hparse Hget.
  rewrite (parses_as_embedding _ _ _ _ _ w Hparse).
  cbn [getitem]. rewrite Hget.
  destruct v as [| b | z | x | s | l | d']; try reflexivity.
  destruct s; reflexivity.
Qed.

Lemma embeddings_need_not_be_an_array_witness :
  fst (embed (responding string_embeddings_body) (lit "hello") default_model
         default_base_url initial_world)
  = Ok (VStr (lit "v")).
Proof.
  apply (embeddings_need_not_be_an_array
           (responding string_embeddings_body) (lit "hello") default_model
           default_base_url initial_world
           [(lit "embeddings", VStr (lit "vector"))] (VStr (lit "vector"))).
  - exists {| read := Ok string_embeddings_body |}, string_embeddings_body,
           (jlit "{'embeddings': 'vector'}").
    repeat split; vm_compute; reflexivity.
  - reflexivity.
Defined.

(** X5.  A response that parses as JSON but is no object (an array, a
    string, a number, [true], [false] or [null]) makes [embed] raise a
    [TypeError], which the script reports with exit status 1. *)
Theorem non_object_response_is_TypeError :
  forall (urlopen : Network) (prog text : pystr) (rest : list pystr) (v : pyval),
    parses_as urlopen text default_model default_base_url v ->
    is_dict v = false ->
    exists message : pystr,
      fst (embed urlopen text default_model default_base_url initial_world)
        = Raise (Raised TypeError message)
      /\ run urlopen (prog :: text :: rest)
         = (Exit 1,
            {| requests :=
                 [(embed_request text default_model default_base_url, 60%Z)];
               stdout := [];
               stderr := lit "Error: " ++ message ++ newline |}).
Proof.
  intros urlopen prog text rest v Hparse Hdict.
  pose proof (parses_as_embedding _ _ _ _ _ initial_world Hparse) as Hembed.
  assert (Hget : exists message,
             getitem v (Key (lit "embeddings")) = Raise (Raised TypeError message)).
  { destruct v; try discriminate Hdict; eexists; reflexivity. }
  destruct Hget as [message Hget]. rewrite Hget in Hembed.
  exists message. split; [exact Hembed |].
  rewrite run_text.
  destruct (embed urlopen text default_model default_base_url initial_world)
    as [r w] eqn:E.
  cbn [fst] in Hembed. subst r.
  rewrite embed_eq in E. injection E as _ <-.
  cbn [is_Exception]. 
  change (issubclass TypeError Exception) with true. cbv iota.
  unfold error_world, sent. cbn [requests stdout stderr initial_world app exn_str].
  rewrite <- app_assoc. reflexivity.
Qed.

Lemma non_object_response_is_TypeError_witness :
  exists message : pystr,
    fst (embed (responding array_body) (lit "hello") default_model
           default_base_url initial_world)
      = Raise (Raised TypeError message)
    /\ run (responding array_body) [lit "ollama-embed.py"; lit "hello"]
       = (Exit 1,
          {| requests :=
               [(embed_request (lit "hello") default_model default_base_url,
                 60%Z)];
             stdout := [];
             stderr := lit "Error: " ++ message ++ newline |}).
Proof.
  apply (non_object_response_is_TypeError
           (responding array_body) (lit "ollama-embed.py") (lit "hello") []
           (VList [VList [VFloat (PyFloat.of_decimal false 1 (-1));
                          VFloat (PyFloat.of_decimal false 2 (-1))]])).
  - exists {| read := Ok array_body |}, array_body, (jlit "[[0.1, 0.2]]").
    repeat split; vm_compute; reflexivity.
  - reflexivity.
Defined.

(** ** Failures and how the script ends *)

Lemma run_reports urlopen prog text rest e :
  fst (embed urlopen text default_model default_base_url initial_world)
    = Raise e ->
  is_Exception e = true ->
  run urlopen (prog :: text :: rest) = (Exit 1, reported text e).
Proof.
  intros Hembed Hexc. rewrite run_text.
  destruct (embed urlopen text default_model default_base_url initial_world)
    as [r w] eqn:E.
  cbn [fst] in Hembed. subst r.
  rewrite embed_eq in E. injection E as _ <-.
  rewrite Hexc.
  unfold error_world, sent, reported.
  cbn [requests stdout stderr initial_world app].
  rewrite <- app_assoc. reflexivity.
Qed.

(** X6.  A body that is not valid UTF-8 makes [embed] raise the
    [UnicodeDecodeError] of [bytes.decode], before any JSON is parsed, and
    the script reports it with exit status 1. *)
Theorem undecodable_body_is_UnicodeDecodeError :
  forall (urlopen : Network) (prog text : pystr) (rest : list pystr)
         (response : Response) (body : pybytes) (e : exn),
    urlopen (embed_request text default_model default_base_url) 60%Z
      = Ok response ->
    read response = Ok body ->
    Utf8.decode body = Raise e ->
    (exists message, e = Raised UnicodeDecodeError message)
    /\ fst (embed urlopen text default_model default_base_url initial_world)
       = Raise e
    /\ run urlopen (prog :: text :: rest) = (Exit 1, reported text e).
Proof.
  intros urlopen prog text rest response body e Hopen Hread Hdecode.
  destruct (decode_raises_UnicodeDecodeError body e Hdecode) as [m ->].
  assert (Hembed : fst (embed urlopen text default_model default_base_url
                          initial_world)
                   = Raise (Raised UnicodeDecodeError m)).
  { rewrite embed_eq, Hopen. cbn [fst]. unfold response_embedding.
    rewrite Hread, Hdecode. reflexivity. }
  split; [exists m; reflexivity |].
  split; [exact Hembed |].
  apply run_reports; [exact Hembed | reflexivity].
Qed.

Lemma undecodable_body_is_UnicodeDecodeError_witness :
  run (responding latin1_body) [lit "ollama-embed.py"; lit "hello"]
  = (Exit 1,
     reported (lit "hello")
       (Raised UnicodeDecodeError
          (lit "'utf-8' codec can't decode byte 0xe9 in position 36: invalid continuation byte"))).
Proof.
  apply (undecodable_body_is_UnicodeDecodeError
           (responding latin1_body) (lit "ollama-embed.py") (lit "hello") []
           {| read := Ok latin1_body |} latin1_body
           (Raised UnicodeDecodeError
              (lit "'utf-8' codec can't decode byte 0xe9 in position 36: invalid continuation byte")));
    vm_compute; reflexivity.
Defined.



(** X8.  Against a network that raises instances of [Exception] only, the
    script writes on exactly one of its two streams: on standard output
    when it exits with status 0, on standard error when it exits with
    status 1; it ends in no other way. *)
Theorem exactly_one_stream_is_written :
  forall (urlopen : Network) (argv : list pystr),
    raises_exceptions_only urlopen ->
    (fst (run urlopen argv) = Exit 0
     /\ stdout (snd (run urlopen argv)) <> []
     /\ stderr (snd (run urlopen argv)) = [])
    \/ (fst (run urlopen argv) = Exit 1
        /\ stdout (snd (run urlopen argv)) = []
        /\ stderr (snd (run urlopen argv)) <> []).
Proof.
  intros urlopen argv Hnet.
  destruct argv as [| prog [| text rest]].
  - right. rewrite run_usage by (simpl; lia).
    repeat split. discriminate.
  - right. rewrite run_usage by (simpl; lia).
    repeat split. discriminate.
  - rewrite run_text.
    destruct (embed urlopen text default_model default_base_url initial_world)
      as [[v | e] w] eqn:Hembed.
    + left. rewrite embed_eq in Hembed. injection Hembed as _ <-.
      cbn [fst snd success_world sent stdout stderr initial_world requests app].
      repeat split.
      intros H. apply app_eq_nil in H. destruct H as [_ H]. discriminate H.
    + right.
      rewrite (embed_raises_exceptions_only _ _ _ _ _ _ _ Hnet Hembed).
      rewrite embed_eq in Hembed. injection Hembed as _ <-.
      cbn [fst snd error_world sent stdout stderr initial_world requests app].
      repeat split.
      intros H. apply app_eq_nil in H. destruct H as [H _].
      discriminate H.
Qed.

Lemma responding_raises_exceptions_only body :
  raises_exceptions_only (responding body).
Proof.
  split.
  - intros req timeout e H. discriminate H.
  - intros req timeout response e Hopen Hread.
    injection Hopen as <-. discriminate Hread.
Qed.

Lemma exactly_one_stream_is_written_witness :
  (fst (run (responding hello_body) [lit "ollama-embed.py"; lit "hello"])
     = Exit 0
   /\ stdout (snd (run (responding hello_body)
                     [lit "ollama-embed.py"; lit "hello"])) <> []
   /\ stderr (snd (run (responding hello_body)
                     [lit "ollama-embed.py"; lit "hello"])) = [])
  \/ (fst (run (responding hello_body) [lit "ollama-embed.py"; lit "hello"])
        = Exit 1
      /\ stdout (snd (run (responding hello_body)
                        [lit "ollama-embed.py"; lit "hello"])) = []
      /\ stderr (snd (run (responding hello_body)
                        [lit "ollama-embed.py"; lit "hello"])) <> []).
Proof.
  apply (exactly_one_stream_is_written (responding hello_body)
           [lit "ollama-embed.py"; lit "hello"]).
  apply responding_raises_exceptions_only.
Defined.



(** ** What [json.dumps] writes is printable *)

Lemma printable_literal s :
  forallb (fun c => (32 <=? c) && (c <=? 126)) s = true -> printable_line s.
Proof.
  intros H. apply Forall_forall. intros c Hc.
  rewrite forallb_forall in H. specialize (H c Hc).
  apply andb_true_iff in H. destruct H as [H1 H2].
  apply N.leb_le in H1. apply N.leb_le in H2. now split.
Qed.

Ltac printable_literal := apply printable_literal; reflexivity.

Lemma printable_app s t :
  printable_line s -> printable_line t -> printable_line (s ++ t).
Proof. intros. apply Forall_app. now split. Qed.

Lemma printable_cons c s :
  32 <= c <= 126 -> printable_line s -> printable_line (c :: s).
Proof. intros. now constructor. Qed.

Lemma dec_digits_aux_printable fuel : forall n acc,
  printable_line acc -> printable_line (dec_digits_aux fuel n acc).
Proof.
  induction fuel as [| f IH]; intros n acc Hacc; [exact Hacc |].
  rewrite dec_digits_aux_S.
  assert (Hd : printable_line ((48 + n mod 10) :: acc)).
  { apply printable_cons; [| exact Hacc].
    pose proof (N.mod_lt n 10 ltac:(discriminate)) as Hr.
    set (r := n mod 10) in *. clearbody r. lia. }
  destruct (n / 10 =? 0); [exact Hd | now apply IH].
Qed.

Lemma dec_digits_printable n : printable_line (dec_digits n).
Proof. apply dec_digits_aux_printable. constructor. Qed.

Lemma int_repr_printable z : printable_line (int_repr z).
Proof.
  destruct z; cbn [int_repr]; try apply dec_digits_printable.
  apply printable_app; [printable_literal | apply dec_digits_printable].
Qed.

Lemma hex_digit_printable d : d < 16 -> 32 <= hex_digit d <= 126.
Proof.
  intros H. unfold hex_digit. destruct (d <? 10) eqn:E.
  - apply N.ltb_lt in E. lia.
  - lia.
Qed.

Lemma hex4_printable n : printable_line (hex4 n).
Proof.
  unfold hex4, printable_line.
  repeat (apply printable_cons;
          [apply hex_digit_printable; apply N.mod_lt; discriminate |]).
  constructor.
Qed.

Lemma escaped_hex4_printable n :
  printable_line (JsonEncoder.backslash :: lit "u" ++ hex4 n).
Proof.
  apply (printable_app [JsonEncoder.backslash; 117]);
    [printable_literal | apply hex4_printable].
Qed.

Lemma escape_char_printable c : printable_line (JsonEncoder.escape_char c).
Proof.
  unfold JsonEncoder.escape_char.
  repeat match goal with
         | |- printable_line (if ?b then _ else _) => destruct b eqn:?
         end;
    try printable_literal.
  - match goal with
    | H : (_ <=? c) && (c <=? 126) = true |- _ =>
        apply andb_true_iff in H; destruct H as [H1 H2];
        apply N.leb_le in H1; apply N.leb_le in H2
    end.
    apply printable_cons; [lia | constructor].
  - apply escaped_hex4_printable.
  - apply printable_app; apply escaped_hex4_printable.
Qed.

Lemma encode_basestring_ascii_printable s :
  printable_line (JsonEncoder.encode_basestring_ascii s).
Proof.
  unfold JsonEncoder.encode_basestring_ascii.
  apply printable_app; [printable_literal |].
  apply printable_app; [| printable_literal].
  induction s as [| c s IH]; cbn [flat_map]; [constructor |].
  apply printable_app; [apply escape_char_printable | exact IH].
Qed.

Lemma zeros_printable n : printable_line (PyFloat.zeros n).
Proof.
  unfold PyFloat.zeros. induction (Z.to_nat n) as [| k IH]; cbn [repeat].
  - constructor.
  - apply printable_cons; [lia | exact IH].
Qed.

Lemma firstn_skipn_printable k s :
  printable_line s -> printable_line (firstn k s) /\ printable_line (skipn k s).
Proof.
  intros H. rewrite <- (firstn_skipn k s) in H.
  now apply Forall_app in H.
Qed.

Lemma format_short_printable ds decpt :
  printable_line ds -> printable_line (PyFloat.format_short ds decpt).
Proof.
  intros Hds. unfold PyFloat.format_short.
  destruct ((decpt <=? -4)%Z || (16 <? decpt)%Z).
  - apply printable_app.
    + destruct ds as [| d [| d' rest]]; [constructor | exact Hds |].
      inversion Hds as [| ? ? Hd Hrest]; subst.
      apply printable_cons; [exact Hd |].
      apply printable_app; [printable_literal | exact Hrest].
    + apply printable_app; [printable_literal |].
      apply printable_app; [destruct (_ <? 0)%Z; printable_literal |].
      apply printable_app;
        [destruct (_ <? 10)%Z; [printable_literal | constructor] |].
      apply dec_digits_printable.
  - destruct (decpt <=? 0)%Z.
    + apply printable_app; [printable_literal |].
      apply printable_app; [apply zeros_printable | exact Hds].
    + destruct (decpt <? Z.of_nat (List.length ds))%Z.
      * destruct (firstn_skipn_printable (Z.to_nat decpt) ds Hds) as [Hf Hs].
        apply printable_app; [exact Hf |].
        apply printable_app; [printable_literal | exact Hs].
      * apply printable_app; [exact Hds |].
        apply printable_app; [apply zeros_printable | printable_literal].
Qed.

Lemma shortest_printable m e : printable_line (fst (PyFloat.shortest m e)).
Proof.
  unfold PyFloat.shortest.
  destruct (PyFloat.fraction m e) as [num den].
  destruct (PyFloat.shortest_from 17 m e _ 1) as [c k].
  destruct (PyFloat.strip_zeros 18 c k) as [c' k'].
  cbn [fst]. apply dec_digits_printable.
Qed.

Lemma float_repr_printable x : printable_line (PyFloat.repr x).
Proof.
  destruct x as [s | s | | s m e]; cbn [PyFloat.repr].
  - destruct s; printable_literal.
  - destruct s; printable_literal.
  - printable_literal.
  - pose proof (shortest_printable m e) as H.
    destruct (PyFloat.shortest m e) as [ds decpt]. cbn [fst] in H.
    apply printable_app; [destruct s; [printable_literal | constructor] |].
    now apply format_short_printable.
Qed.

Lemma floatstr_printable x : printable_line (JsonEncoder.floatstr x).
Proof.
  destruct x as [s | s | | s m e]; cbn [JsonEncoder.floatstr];
    try apply float_repr_printable.
  - destruct s; printable_literal.
  - printable_literal.
Qed.

Lemma join_printable sep chunks :
  printable_line sep -> Forall printable_line chunks ->
  printable_line (JsonEncoder.join sep chunks).
Proof.
  intros Hsep H. induction H as [| c cs Hc Hcs IH]; [constructor |].
  cbn [JsonEncoder.join]. destruct cs as [| c' cs']; [exact Hc |].
  apply printable_app; [exact Hc |].
  apply printable_app; [exact Hsep | exact IH].
Qed.

(** Whatever the value, [json.dumps] writes printable ASCII characters
    only. *)
Lemma json_dumps_printable : forall o : pyval, printable_line (json_dumps o).
Proof.
  unfold json_dumps.
  fix IH 1. intros o.
  destruct o as [| b | z | x | s | l | d]; cbn [JsonEncoder.encode].
  - printable_literal.
  - destruct b; printable_literal.
  - apply int_repr_printable.
  - apply floatstr_printable.
  - apply encode_basestring_ascii_printable.
  - apply printable_app; [printable_literal |].
    apply printable_app; [| printable_literal].
    apply join_printable; [printable_literal |].
    induction l as [| v l IHl]; cbn [map]; constructor;
      [apply IH | exact IHl].
  - apply printable_app; [printable_literal |].
    apply printable_app; [| printable_literal].
    apply join_printable; [printable_literal |].
    induction d as [| [k v] d IHd]; cbn [map]; constructor; [| exact IHd].
    cbn [fst snd].
    apply printable_app; [apply encode_basestring_ascii_printable |].
    apply printable_app; [printable_literal | apply IH].
Qed.

(** X10.  When [embed] succeeds the script prints exactly one line: the JSON
    text of the embedding, made of printable ASCII characters only, followed
    by a line break; this holds whatever value the service sent. *)
Theorem success_prints_one_printable_line :
  forall (urlopen : Network) (prog text : pystr) (rest : list pystr)
         (embedding : pyval) (w : World),
    embed urlopen text default_model default_base_url initial_world
      = (Ok embedding, w) ->
    exists line : pystr,
      stdout (snd (run urlopen (prog :: text :: rest))) = line ++ newline
      /\ line = json_dumps embedding
      /\ printable_line line
      /\ ~ In 10 line.
Proof.
  intros urlopen prog text rest embedding w Hembed.
  exists (json_dumps embedding).
  rewrite run_text, Hembed.
  rewrite embed_eq in Hembed. injection Hembed as _ <-.
  split; [reflexivity |]. split; [reflexivity |].
  pose proof (json_dumps_printable embedding) as Hp.
  split; [exact Hp |].
  intros Hin. apply (proj1 (Forall_forall _ _) Hp) in Hin. lia.
Qed.

Lemma success_prints_one_printable_line_witness :
  exists line : pystr,
    stdout (snd (run (responding hello_body)
                   [lit "ollama-embed.py"; lit "hello"])) = line ++ newline
    /\ line = json_dumps (VList [VFloat (PyFloat.of_decimal false 1 (-1));
                                 VFloat (PyFloat.of_decimal false 2 (-1));
                                 VFloat (PyFloat.of_decimal false 3 (-1))])
    /\ printable_line line
    /\ ~ In 10 line.
Proof.
  apply (success_prints_one_printable_line
           (responding hello_body) (lit "ollama-embed.py") (lit "hello") []
           (VList [VFloat (PyFloat.of_decimal false 1 (-1));
                   VFloat (PyFloat.of_decimal false 2 (-1));
                   VFloat (PyFloat.of_decimal false 3 (-1))])
           (sent initial_world
              (embed_request (lit "hello") default_model default_base_url)
              60%Z)).
  vm_compute. reflexivity.
Defined.

(** ** Reading the request body back *)

Module RoundTrip.

Import JsonEncoder JsonDecoder.

Lemma hex_value_hex_digit d : d < 16 -> hex_value (hex_digit d) = Some d.
Proof.
  intros H.
  assert (Hd : d = 0 \/ d = 1 \/ d = 2 \/ d = 3 \/ d = 4 \/ d = 5 \/ d = 6
               \/ d = 7 \/ d = 8 \/ d = 9 \/ d = 10 \/ d = 11 \/ d = 12
               \/ d = 13 \/ d = 14 \/ d = 15) by lia.
  repeat (destruct Hd as [-> | Hd]; [reflexivity |]). subst d. reflexivity.
Qed.

Lemma hex4_digits n :
  n < 65536 ->
  n = (((n / 4096) mod 16 * 16 + (n / 256) mod 16) * 16 + (n / 16) mod 16) * 16
      + n mod 16.
Proof.
  intros H.
  pose proof (N.div_mod n 16 ltac:(discriminate)) as H0.
  pose proof (N.div_mod (n / 16) 16 ltac:(discriminate)) as H1.
  pose proof (N.div_mod (n / 16 / 16) 16 ltac:(discriminate)) as H2.
  pose proof (N.mod_lt n 16 ltac:(discriminate)) as L0.
  pose proof (N.mod_lt (n / 16) 16 ltac:(discriminate)) as L1.
  pose proof (N.mod_lt (n / 16 / 16) 16 ltac:(discriminate)) as L2.
  assert (E1 : n / 256 = n / 16 / 16) by (rewrite N.Div0.div_div; reflexivity).
  assert (E2 : n / 4096 = n / 16 / 16 / 16)
    by (rewrite !N.Div0.div_div; reflexivity).
  assert (L3 : n / 16 / 16 / 16 < 16).
  { rewrite <- E2. apply N.Div0.div_lt_upper_bound. exact H. }
  rewrite E2, E1, (N.mod_small _ _ L3).
  set (a := n / 16) in *. set (w := n mod 16) in *.
  set (b := a / 16) in *. set (z := a mod 16) in *.
  set (c := b / 16) in *. set (y := b mod 16) in *.
  clearbody a w b z c y. lia.
Qed.

Lemma hex4_value_hex4 n :
  n < 65536 ->
  match hex4 n with
  | [h1; h2; h3; h4] => hex4_value h1 h2 h3 h4 = Some n
  | _ => False
  end.
Proof.
  intros H. unfold hex4, hex4_value.
  rewrite !hex_value_hex_digit by (apply N.mod_lt; discriminate).
  f_equal. symmetry. now apply hex4_digits.
Qed.

Lemma land_high_low x l k : l < 2 ^ k -> N.land (x * 2 ^ k) l = 0.
Proof.
  intros H. apply N.bits_inj. intros m.
  rewrite N.land_spec, N.bits_0.
  destruct (N.lt_ge_cases m k) as [Hm | Hm].
  - rewrite N.mul_pow2_bits_low by exact Hm. reflexivity.
  - apply andb_false_iff. right.
    destruct (N.eq_dec l 0) as [-> | Hl]; [apply N.bits_0 |].
    apply N.bits_above_log2.
    apply N.log2_lt_pow2; [lia |].
    eapply N.lt_le_trans; [exact H |].
    apply N.pow_le_mono_r; [discriminate | exact Hm].
Qed.

Lemma lor_high_low x l k : l < 2 ^ k -> N.lor (x * 2 ^ k) l = x * 2 ^ k + l.
Proof.
  intros H. pose proof (land_high_low x l k H) as Hland.
  rewrite <- (N.lxor_lor _ _ Hland). symmetry.
  now apply N.add_nocarry_lxor.
Qed.

(** The two escapes [json.dumps] writes for a character beyond U+FFFF are
    a high and a low surrogate that join to the character again. *)
Lemma surrogate_pair c :
  65536 <= c -> c <= 1114111 ->
  let n := c - 65536 in
  let s1 := N.lor 55296 (N.land (N.shiftr n 10) 1023) in
  let s2 := N.lor 56320 (N.land n 1023) in
  s1 < 65536 /\ s2 < 65536
  /\ is_high_surrogate s1 = true /\ is_low_surrogate s2 = true
  /\ join_surrogates s1 s2 = c.
Proof.
  intros Hlo Hhi n s1 s2.
  assert (Hn : n < 1048576) by (subst n; lia).
  assert (Hh : n / 1024 < 1024)
    by (apply N.Div0.div_lt_upper_bound; exact Hn).
  pose proof (N.mod_lt n 1024 ltac:(discriminate)) as Hl.
  pose proof (N.div_mod n 1024 ltac:(discriminate)) as Hdm.
  assert (E1 : s1 = 55296 + n / 1024).
  { subst s1. rewrite N.shiftr_div_pow2.
    change 1023 with (N.ones 10). rewrite N.land_ones.
    change (2 ^ 10) with 1024. rewrite (N.mod_small _ _ Hh).
    change 55296 with (54 * 2 ^ 10). apply lor_high_low. exact Hh. }
  assert (E2 : s2 = 56320 + n mod 1024).
  { subst s2. change 1023 with (N.ones 10). rewrite N.land_ones.
    change (2 ^ 10) with 1024.
    change 56320 with (55 * 2 ^ 10). apply lor_high_low. exact Hl. }
  assert (Ej : join_surrogates s1 s2 = c).
  { unfold join_surrogates. rewrite E1, E2.
    rewrite !(N.add_comm _ (_ / 1024)), !(N.add_comm _ (_ mod 1024)),
      !N.add_sub.
    rewrite N.shiftl_mul_pow2, (lor_high_low _ _ 10 Hl).
    change (2 ^ 10) with 1024.
    set (h := n / 1024) in *. set (l := n mod 1024) in *.
    clearbody h l. subst n. lia. }
  set (h := n / 1024) in *. set (l := n mod 1024) in *. clearbody h l.
  split; [rewrite E1; lia |].
  split; [rewrite E2; lia |].
  split; [rewrite E1; unfold is_high_surrogate;
          apply andb_true_iff; split; apply N.leb_le; lia |].
  split; [rewrite E2; unfold is_low_surrogate;
          apply andb_true_iff; split; apply N.leb_le; lia |].
  exact Ej.
Qed.

(** *** One step of [scanstring] *)

Lemma scanstring_plain c r pos begin acc :
  (c =? dquote) = false -> (c =? backslash) = false -> (c <=? 31) = false ->
  scanstring (c :: r) pos begin acc = scanstring r (pos + 1) begin (c :: acc).
Proof. intros H1 H2 H3. cbn [scanstring]. rewrite H1, H2, H3. reflexivity. Qed.

Lemma scanstring_simple_escape e ch r pos begin acc :
  (e =? letter_u) = false -> unescape e = Some ch ->
  scanstring (backslash :: e :: r) pos begin acc
  = scanstring r (pos + 2) begin (ch :: acc).
Proof.
  intros H1 H2. cbn [scanstring].
  change (backslash =? dquote) with false.
  change (backslash =? backslash) with true. cbv beta match.
  rewrite H1, H2. reflexivity.
Qed.

Lemma scanstring_u_escape h1 h2 h3 h4 u r pos begin acc :
  hex4_value h1 h2 h3 h4 = Some u -> is_high_surrogate u = false ->
  r <> [] ->
  scanstring (backslash :: letter_u :: h1 :: h2 :: h3 :: h4 :: r) pos begin acc
  = scanstring r (pos + 6) begin (u :: acc).
Proof.
  intros Hhex Hhigh Hr. cbn [scanstring].
  change (backslash =? dquote) with false.
  change (backslash =? backslash) with true.
  change (letter_u =? letter_u) with true. cbv beta match.
  destruct r as [| x r]; [contradiction |].
  rewrite Hhex, Hhigh.
  destruct r as [| a1 [| a2 [| a3 [| a4 [| a5 [| a6 r]]]]]]; reflexivity.
Qed.

Lemma scanstring_pair h1 h2 h3 h4 g1 g2 g3 g4 u1 u2 r pos begin acc :
  hex4_value h1 h2 h3 h4 = Some u1 -> is_high_surrogate u1 = true ->
  hex4_value g1 g2 g3 g4 = Some u2 -> is_low_surrogate u2 = true ->
  r <> [] ->
  scanstring (backslash :: letter_u :: h1 :: h2 :: h3 :: h4
                :: backslash :: letter_u :: g1 :: g2 :: g3 :: g4 :: r)
             pos begin acc
  = scanstring r (pos + 12) begin (join_surrogates u1 u2 :: acc).
Proof.
  intros Hh Hhigh Hg Hlow Hr. cbn [scanstring].
  change (backslash =? dquote) with false.
  change (backslash =? backslash) with true.
  change (letter_u =? letter_u) with true. cbv beta match.
  destruct r as [| x r]; [contradiction |].
  rewrite Hh, Hhigh, Hg, Hlow. reflexivity.
Qed.

(** *** Strings *)

(** [scanstring] reads the escape of one character back as that
    character. *)
Lemma scanstring_escape_char c r pos begin acc :
  c <= 1114111 -> is_high_surrogate c = false -> r <> [] ->
  exists pos',
    scanstring (escape_char c ++ r) pos begin acc
    = scanstring r pos' begin (c :: acc).
Proof.
  intros Hmax Hhigh Hr. unfold escape_char.
  destruct (c =? backslash) eqn:E1.
  { apply N.eqb_eq in E1. subst c. eexists.
    apply scanstring_simple_escape; reflexivity. }
  destruct (c =? dquote) eqn:E2.
  { apply N.eqb_eq in E2. subst c. eexists.
    apply scanstring_simple_escape; reflexivity. }
  destruct (c =? 8) eqn:E3.
  { apply N.eqb_eq in E3. subst c. eexists.
    apply scanstring_simple_escape; reflexivity. }
  destruct (c =? 12) eqn:E4.
  { apply N.eqb_eq in E4. subst c. eexists.
    apply scanstring_simple_escape; reflexivity. }
  destruct (c =? 10) eqn:E5.
  { apply N.eqb_eq in E5. subst c. eexists.
    apply scanstring_simple_escape; reflexivity. }
  destruct (c =? 13) eqn:E6.
  { apply N.eqb_eq in E6. subst c. eexists.
    apply scanstring_simple_escape; reflexivity. }
  destruct (c =? 9) eqn:E7.
  { apply N.eqb_eq in E7. subst c. eexists.
    apply scanstring_simple_escape; reflexivity. }
  destruct ((32 <=? c) && (c <=? 126)) eqn:E8.
  { apply andb_true_iff in E8. destruct E8 as [E8 _]. apply N.leb_le in E8.
    eexists. apply scanstring_plain; [exact E2 | exact E1 |].
    apply N.leb_gt. lia. }
  destruct (c <? 65536) eqn:E9.
  { apply N.ltb_lt in E9. eexists.
    pose proof (hex4_value_hex4 c E9) as Hhex. unfold hex4 in *.
    apply (scanstring_u_escape _ _ _ _ c r pos begin acc Hhex Hhigh Hr). }
  apply N.ltb_ge in E9.
  destruct (surrogate_pair c E9 Hmax) as [L1 [L2 [H1 [H2 Hj]]]].
  cbv zeta in *.
  set (s1 := N.lor 55296 (N.land (N.shiftr (c - 65536) 10) 1023)) in *.
  set (s2 := N.lor 56320 (N.land (c - 65536) 1023)) in *.
  pose proof (hex4_value_hex4 s1 L1) as Hhex1.
  pose proof (hex4_value_hex4 s2 L2) as Hhex2.
  unfold hex4 in *. exists (pos + 12).
  replace (c :: acc) with (join_surrogates s1 s2 :: acc)
    by (rewrite Hj; reflexivity).
  apply (scanstring_pair _ _ _ _ _ _ _ _ s1 s2 r pos begin acc
           Hhex1 H1 Hhex2 H2 Hr).
Qed.

(** [scanstring] reads what [encode_basestring_ascii] wrote, up to the
    closing quote, back as the string. *)
Lemma scanstring_escaped s : forall pos begin acc rest,
  no_high_surrogate s ->
  exists pos',
    scanstring (flat_map escape_char s ++ dquote :: rest) pos begin acc
    = Scanned (rev acc ++ s) rest pos'.
Proof.
  induction s as [| c s IH]; intros pos begin acc rest Hs.
  - exists (pos + 1). cbn [flat_map app scanstring].
    change (dquote =? dquote) with true. cbv beta match.
    rewrite app_nil_r. reflexivity.
  - inversion Hs as [| ? ? [Hmax Hhigh] Hs']; subst.
    cbn [flat_map]. rewrite <- app_assoc.
    destruct (scanstring_escape_char c
                (flat_map escape_char s ++ dquote :: rest) pos begin acc
                Hmax Hhigh) as [p1 H1].
    { intros H. apply app_eq_nil in H. destruct H as [_ H]. discriminate H. }
    rewrite H1.
    destruct (IH p1 begin (c :: acc) rest Hs') as [p2 H2].
    exists p2. rewrite H2. cbn [rev]. rewrite <- app_assoc. reflexivity.
Qed.

(** *** Objects of strings *)

Lemma skip_whitespace_stop c r p :
  is_whitespace c = false -> skip_whitespace (c :: r) p = (c :: r, p).
Proof. intros H. cbn [skip_whitespace]. rewrite H. reflexivity. Qed.

Lemma skip_whitespace_space c r p :
  is_whitespace c = false ->
  skip_whitespace (32 :: c :: r) p = (c :: r, p + 1).
Proof. intros H. cbn [skip_whitespace]. rewrite H. reflexivity. Qed.

Lemma scan_once_string f s rest pos :
  no_high_surrogate s ->
  exists pos',
    scan_once (S f) (dquote :: flat_map escape_char s ++ dquote :: rest) pos
    = Scanned (VStr s) rest pos'.
Proof.
  intros Hs.
  destruct (scanstring_escaped s (pos + 1) pos [] rest Hs) as [p H].
  exists p. cbn [scan_once].
  change (dquote =? dquote) with true. cbv beta match.
  rewrite H. reflexivity.
Qed.

Lemma object_items_value f key val rest pos acc :
  no_high_surrogate key -> no_high_surrogate val ->
  exists pos',
    object_items (S (S f)) (member key val rest) pos acc
    = let d := dict_set acc key (VStr val) in
      let '(r6, p6) := skip_whitespace rest pos' in
      match r6 with
      | c3 :: r7 =>
          if c3 =? 125 then Scanned (VDict d) r7 (p6 + 1)
          else if c3 =? 44 then
            let '(r8, p8) := skip_whitespace r7 (p6 + 1) in
            object_items (S f) r8 p8 d
          else Failed expecting_comma p6
      | [] => Failed expecting_comma p6
      end.
Proof.
  intros Hk Hv. unfold member.
  destruct (scanstring_escaped key (pos + 1) pos []
              (58 :: 32 :: dquote :: flat_map escape_char val ++ dquote :: rest)
              Hk) as [p1 H1].
  destruct (scan_once_string f val rest (p1 + 1 + 1) Hv) as [p5 H5].
  exists p5. cbn [object_items].
  change (dquote =? dquote) with true. cbn [negb]. cbv beta match.
  rewrite H1. cbn [rev app].
  rewrite (skip_whitespace_stop 58) by reflexivity. cbv beta match.
  change (58 =? 58) with true. cbn [negb]. cbv beta match.
  rewrite (skip_whitespace_space dquote) by reflexivity. cbv beta match.
  rewrite H5. reflexivity.
Qed.

Lemma fuel_for_cons c s : fuel_for (c :: s) = S (S (S (S (2 * List.length s)))).
Proof. unfold fuel_for. cbn [List.length]. lia. Qed.

(** The text [json.dumps] writes for the request object. *)
Lemma request_text text model :
  json_dumps (request_object text model)
  = 123 :: member (lit "model") model
             (44 :: 32 :: member (lit "input") text [125]).
Proof.
  rewrite request_object_dumps. unfold encode_basestring_ascii, member.
  repeat rewrite <- app_assoc. reflexivity.
Qed.

Lemma no_high_surrogate_literal s :
  forallb (fun c => (c <=? 1114111) && negb (is_high_surrogate c)) s = true ->
  no_high_surrogate s.
Proof.
  intros H. apply Forall_forall. intros c Hc.
  rewrite forallb_forall in H. specialize (H c Hc).
  apply andb_true_iff in H. destruct H as [H1 H2].
  apply N.leb_le in H1. apply negb_true_iff in H2. now split.
Qed.

(** Reading back what [json.dumps] wrote for the request object gives the
    object again. *)
Lemma loads_request_object text model :
  no_high_surrogate text -> no_high_surrogate model ->
  json_loads (json_dumps (request_object text model))
  = Ok (request_object text model).
Proof.
  intros Ht Hm. rewrite request_text.
  unfold json_loads, loads.
  change (123 =? byte_order_mark) with false. cbv beta match.
  rewrite fuel_for_cons.
  rewrite (skip_whitespace_stop 123) by reflexivity. cbv beta match.
  set (f := (2 * List.length _)%nat). clearbody f.
  cbn [scan_once].
  change (123 =? dquote) with false. change (123 =? 123) with true.
  cbv beta match.
  unfold member at 1.
  rewrite (skip_whitespace_stop dquote) by reflexivity. cbv beta match.
  change (dquote =? 125) with false. cbv beta match.
  fold (member (lit "model") model
          (44 :: 32 :: member (lit "input") text [125])).
  destruct (object_items_value (S f) (lit "model") model
              (44 :: 32 :: member (lit "input") text [125]) (0 + 1) []
              (no_high_surrogate_literal (lit "model") eq_refl) Hm)
    as [p1 H1].
  rewrite H1. cbv zeta.
  rewrite (skip_whitespace_stop 44) by reflexivity. cbv beta match.
  change (44 =? 125) with false. change (44 =? 44) with true. cbv beta match.
  unfold member at 1.
  rewrite (skip_whitespace_space dquote) by reflexivity. cbv beta match.
  fold (member (lit "input") text [125]).
  destruct (object_items_value f (lit "input") text [125] (p1 + 1 + 1)
              (dict_set [] (lit "model") (VStr model))
              (no_high_surrogate_literal (lit "input") eq_refl) Ht)
    as [p2 H2].
  rewrite H2. cbv zeta.
  rewrite (skip_whitespace_stop 125) by reflexivity. cbv beta match.
  change (125 =? 125) with true. cbv beta match.
  cbn [skip_whitespace]. reflexivity.
Qed.

End RoundTrip.

(** A literal string without high surrogates, checked character by
    character. *)
Ltac no_high_surrogate_literal :=
  repeat (constructor; [split; [vm_compute; discriminate | reflexivity] |]);
  constructor.

Lemma request_body_reads_back text model :
  no_high_surrogate text -> no_high_surrogate model ->
  Utf8.decode (data (embed_request text model default_base_url))
    = Ok (json_dumps (request_object text model))
  /\ json_loads (json_dumps (request_object text model))
     = Ok (request_object text model).
Proof.
  intros Ht Hm. split.
  - apply (decode_ascii_bytes _ (request_object_ascii text model)).
  - now apply RoundTrip.loads_request_object.
Qed.

(** X11.  What [embed] sends can be read back: for a text and a model
    without high surrogates, decoding the request body as UTF-8 and parsing
    it as JSON gives the object with exactly the members [model] and
    [input], holding the model and the text unchanged. *)
Theorem request_body_round_trip :
  forall (urlopen : Network) (text model base_url : pystr) (w : World),
    no_high_surrogate text ->
    no_high_surrogate model ->
    exists (req : Request) (s : pystr),
      requests (snd (embed urlopen text model base_url w))
        = requests w ++ [(req, 60%Z)]
      /\ Utf8.decode (data req) = Ok s
      /\ json_loads s
         = Ok (VDict [(lit "model", VStr model); (lit "input", VStr text)]).
Proof.
  intros urlopen text model base_url w Ht Hm.
  exists (embed_request text model base_url),
         (json_dumps (request_object text model)).
  rewrite embed_eq. cbn [snd sent requests].
  split; [reflexivity |].
  exact (request_body_reads_back text model Ht Hm).
Qed.

Lemma request_body_round_trip_witness :
  exists (req : Request) (s : pystr),
    requests (snd (embed (responding hello_body) awkward_text default_model
                     default_base_url initial_world))
      = [(req, 60%Z)]
    /\ Utf8.decode (data req) = Ok s
    /\ json_loads s
       = Ok (VDict [(lit "model", VStr default_model);
                    (lit "input", VStr awkward_text)]).
Proof.
  apply (request_body_round_trip (responding hello_body) awkward_text
           default_model default_base_url initial_world);
    no_high_surrogate_literal.
Defined.





(** X14.  [embed] returns a value only for a response that parses as an
    object whose [embeddings] member is a non-empty array or a non-empty
    string; the value is what that member holds first. *)
Theorem embed_success_shape :
  forall (urlopen : Network) (text model base_url : pystr) (w w' : World)
         (v : pyval),
    embed urlopen text model base_url w = (Ok v, w') ->
    exists (d : list (pystr * pyval)) (embeddings : pyval),
      parses_as urlopen text model base_url (VDict d)
      /\ dict_get d (lit "embeddings") = Some embeddings
      /\ ((exists others, embeddings = VList (v :: others))
          \/ (exists c others, embeddings = VStr (c :: others) /\ v = VStr [c])).
Proof.
  intros urlopen text model base_url w w' v H.
  rewrite embed_eq in H. injection H as H _.
  destruct (urlopen (embed_request text model base_url) 60%Z)
    as [response | e] eqn:Hopen; [| discriminate H].
  unfold response_embedding in H.
  destruct (read response) as [body | e] eqn:Hread; [| discriminate H].
  destruct (Utf8.decode body) as [s | e] eqn:Hdecode; [| discriminate H].
  destruct (json_loads s) as [result | e] eqn:Hloads; [| discriminate H].
  destruct result as [| b | z | x | s0 | l | d]; try discriminate H.
  cbn [getitem] in H.
  destruct (dict_get d (lit "embeddings")) as [embeddings |] eqn:Hget;
    [| discriminate H].
  exists d, embeddings.
  split; [exists response, body, s; repeat split; assumption |].
  split; [exact Hget |].
  destruct embeddings as [| b | z | x | s0 | l | d']; try discriminate H.
  - right. destruct s0 as [| c others]; [discriminate H |].
    injection H as <-. exists c, others. split; reflexivity.
  - left. destruct l as [| first others]; [discriminate H |].
    injection H as <-. exists others. reflexivity.
Qed.

Lemma embed_success_shape_witness :
  exists (d : list (pystr * pyval)) (embeddings : pyval),
    parses_as (responding two_embeddings_body) (lit "hello") default_model
      default_base_url (VDict d)
    /\ dict_get d (lit "embeddings") = Some embeddings
    /\ ((exists others,
            embeddings
            = VList (VList [VFloat (PyFloat.of_decimal false 15 (-1));
                            VFloat (PyFloat.of_decimal false 25 (-1))]
                       :: others))
        \/ (exists c others,
               embeddings = VStr (c :: others)
               /\ VList [VFloat (PyFloat.of_decimal false 15 (-1));
                         VFloat (PyFloat.of_decimal false 25 (-1))]
                  = VStr [c])).
Proof.
  apply (embed_success_shape
           (responding two_embeddings_body) (lit "hello") default_model
           default_base_url initial_world
           (sent initial_world
              (embed_request (lit "hello") default_model default_base_url)
              60%Z)).
  vm_compute. reflexivity.
Defined.
